(** * Risk engine (src/services/riskEngine.js): a shallow embedding

    The class [RiskEngine] is embedded as a record of its two fields
    ([thresholds], [warnings]) and its methods as computations in a small
    state monad over that record.  JavaScript numbers are embedded as the
    values of IEEE-754 binary64: rationals, the two infinities, NaN and the
    negative zero, with every arithmetic result rounded to the nearest
    double. *)

From Stdlib Require Import ZArith QArith Qreduction List Bool Lia.
From Stdlib Require Import Permutation Sorted.
Import ListNotations.

Set Implicit Arguments.
Close Scope Q_scope.

(** ** JavaScript numbers

    A JS number is an IEEE-754 double.  A finite double is kept as the
    rational it stands for ([Fin q]); the negative zero has a constructor of
    its own, [Fin 0] being the positive one.  The result of an operation is
    the exact result rounded to the nearest double, to the even one of two
    nearest, as the default rounding of IEEE-754 prescribes; it underflows
    to a zero of the right sign and overflows to an infinity.  A [Fin q]
    whose [q] is no double never comes out of an operation; as an argument
    it is computed with all the same. *)
Module JSNumber.

Inductive num : Type :=
| Fin (q : Q)
| PInf
| NInf
| NaN
| NZero.

(** An integer, as it is: a double holds every integer up to [2 ^ 53]. *)
Definition of_Z (z : Z) : num := Fin (inject_Z z).
Definition of_nat (n : nat) : num := of_Z (Z.of_nat n).

(** [floor (log2 (n / d))] *)
Definition floorLog2 (n d : positive) : Z :=
  let e := (Z.log2 (Zpos n) - Z.log2 (Zpos d))%Z in
  if (Zpos d * 2 ^ Z.max e 0 <=? Zpos n * 2 ^ Z.max (- e) 0)%Z
  then e else (e - 1)%Z.

(** The integer nearest to [N / D], the even one of two at the same
    distance. *)
Definition nearestEven (N D : Z) : Z :=
  let m := (N / D)%Z in
  match (2 * (N mod D) ?= D)%Z with
  | Lt => m
  | Gt => (m + 1)%Z
  | Eq => if Z.even m then m else (m + 1)%Z
  end.

(** The double nearest to the positive rational [n / d]: 53 significant
    bits, a last place no finer than [2 ^ -1074], Infinity from [2 ^ 1024]
    on. *)
Definition roundPos (n d : positive) : num :=
  let k := Z.max (floorLog2 n d - 52) (-1074) in
  let m := nearestEven (Zpos n * 2 ^ Z.max (- k) 0) (Zpos d * 2 ^ Z.max k 0) in
  if (2 ^ 1024 <=? m * 2 ^ Z.max k 0)%Z then PInf
  else Fin (Qred (Qmake (m * 2 ^ Z.max k 0) (Z.to_pos (2 ^ Z.max (- k) 0)))).

(** [-a] *)
Definition opp (a : num) : num :=
  match a with
  | Fin q => if Qeq_bool q 0 then NZero else Fin (- q)
  | PInf => NInf
  | NInf => PInf
  | NaN => NaN
  | NZero => Fin 0
  end.

(** The double nearest to a rational; a rational too small for a double
    gives the zero of its sign.  A decimal literal of the source, such as
    [1.8], denotes [round (9 # 5)]. *)
Definition round (q : Q) : num :=
  match Qnum q with
  | Z0 => Fin 0
  | Zpos n => roundPos n (Qden q)
  | Zneg n => opp (roundPos n (Qden q))
  end.

(** The sign bit. *)
Definition negative (a : num) : bool :=
  match a with
  | Fin q => (Qnum q <? 0)%Z
  | NInf | NZero => true
  | PInf | NaN => false
  end.

Definition isZero (a : num) : bool :=
  match a with
  | Fin q => Qeq_bool q 0
  | NZero => true
  | _ => false
  end.

Definition zero (neg : bool) : num := if neg then NZero else Fin 0.
Definition infinity (neg : bool) : num := if neg then NInf else PInf.

(** The rational a finite number stands for. *)
Definition valueOf (a : num) : Q :=
  match a with
  | Fin q => q
  | _ => 0
  end.

(** [a - b]: a difference that is exactly zero is the positive zero, but
    for [(-0) - (+0)]. *)
Definition sub (a b : num) : num :=
  match a, b with
  | NaN, _ | _, NaN => NaN
  | PInf, PInf | NInf, NInf => NaN
  | PInf, _ | _, NInf => PInf
  | NInf, _ | _, PInf => NInf
  | _, _ =>
      let d := (valueOf a - valueOf b)%Q in
      if Qeq_bool d 0
      then zero (negative a && isZero a && negb (negative b))
      else round d
  end.

(** [a * b]: the sign of the result is the product of the signs, also of a
    zero and of an infinity; zero times Infinity is NaN. *)
Definition mul (a b : num) : num :=
  let neg := xorb (negative a) (negative b) in
  match a, b with
  | NaN, _ | _, NaN => NaN
  | (PInf | NInf), _ => if isZero b then NaN else infinity neg
  | _, (PInf | NInf) => if isZero a then NaN else infinity neg
  | _, _ =>
      let p := (valueOf a * valueOf b)%Q in
      if Qeq_bool p 0 then zero neg else round p
  end.

(** [a / b]: a non-zero number over a zero is an infinity, of the sign of
    the two together; 0/0 and Infinity/Infinity are NaN. *)
Definition div (a b : num) : num :=
  let neg := xorb (negative a) (negative b) in
  match a, b with
  | NaN, _ | _, NaN => NaN
  | (PInf | NInf), (PInf | NInf) => NaN
  | (PInf | NInf), _ => infinity neg
  | _, (PInf | NInf) => zero neg
  | _, _ =>
      if isZero b then (if isZero a then NaN else infinity neg)
      else if isZero a then zero neg
      else round (valueOf a / valueOf b)
  end.

(** In a comparison the two zeros are one. *)
Definition norm (a : num) : num :=
  match a with
  | NZero => Fin 0
  | _ => a
  end.

(** [a < b]; every comparison with NaN is false. *)
Definition lt (a b : num) : bool :=
  match norm a, norm b with
  | Fin x, Fin y => negb (Qle_bool y x)
  | NInf, (Fin _ | PInf) | Fin _, PInf => true
  | _, _ => false
  end.

(** [a <= b] *)
Definition le (a b : num) : bool :=
  match norm a, norm b with
  | Fin x, Fin y => Qle_bool x y
  | NInf, (Fin _ | PInf | NInf) | (Fin _ | PInf), PInf => true
  | _, _ => false
  end.

Definition gt (a b : num) : bool := lt b a.
Definition ge (a b : num) : bool := le b a.

(** [a === b] on numbers *)
Definition strict_eq (a b : num) : bool :=
  match norm a, norm b with
  | Fin x, Fin y => Qeq_bool x y
  | PInf, PInf | NInf, NInf => true
  | _, _ => false
  end.

(** ToBoolean on a number: the zeros and NaN are falsy. *)
Definition truthy (a : num) : bool :=
  match a with
  | Fin q => negb (Qeq_bool q 0)
  | NaN | NZero => false
  | _ => true
  end.

End JSNumber.

Import JSNumber.

Declare Scope num_scope.
Delimit Scope num_scope with num.
Bind Scope num_scope with num.
Infix "-" := sub : num_scope.
Infix "*" := mul : num_scope.
Infix "/" := div : num_scope.
Infix "<?" := lt : num_scope.
Infix "<=?" := le : num_scope.
Infix ">?" := gt : num_scope.
Infix ">=?" := ge : num_scope.
Infix "===" := strict_eq (at level 70) : num_scope.

(** ** Enumerations *)

Inductive RiskLevel : Type := LOW | MEDIUM | HIGH | CRITICAL.

Inductive RiskType : Type :=
| OVERTRADING
| HIGH_LOSS_STREAK
| LARGE_POSITION
| RAPID_TRADING
| MARTINGALE_PATTERN
| BALANCE_DEPLETION
| BOT_ACTIVITY
| UNUSUAL_HOURS.

(** ** Records the engine consumes *)

(** A closed trade.  [purchase_time] is in Unix seconds. *)
Module Trade.
Record t : Type := mk {
  purchase_time : Z;
  buy_price : num;
  sell_price : num
}.
End Trade.

(** An open position.  [contract_id] is the venue's numeric identifier. *)
Module Position.
Record t : Type := mk {
  buy_price : num;
  contract_id : Z
}.
End Position.

(** ** Thresholds *)

Record Thresholds : Type := {
  maxDailyTrades : num;
  maxLossStreak : num;
  maxPositionPercent : num;
  minTimeBetweenTrades : num;
  martingaleMultiplier : num;
  balanceDropPercent : num;
  botTradeInterval : num
}.

(** The argument of [setThresholds]: an object with any subset of the keys. *)
Record PartialThresholds : Type := {
  maxDailyTrades' : option num;
  maxLossStreak' : option num;
  maxPositionPercent' : option num;
  minTimeBetweenTrades' : option num;
  martingaleMultiplier' : option num;
  balanceDropPercent' : option num;
  botTradeInterval' : option num
}.

(** ** Warnings

    A message is a template literal; it is kept as the template together
    with the values interpolated into it. *)
Inductive Message : Type :=
| HighTradingFrequency (count : nat) (threshold : num)
| ConsecutiveLosses (maxStreak : nat)
| RapidTradingDetected (rapidCount : nat) (threshold : num)
| MartingaleDetected (martingaleCount : nat)
| SignificantBalanceDrop (dropPercent : num)
| PotentialBotActivity (suspiciousIntervals : nat) (threshold : num)
| UnusualHoursTrading (count : nat)
| LargePosition (positionPercent : num) (contract_id : Z).

Record Warning : Type := {
  type : RiskType;
  level : RiskLevel;
  message : Message;
  value : num;
  isBotLikely : option bool;
  contractId : option Z
}.

(** The object returned by [analyzeTradeHistory]; the short-circuit return
    has no [riskLevel] key. *)
Module AnalysisResult.
Record t : Type := mk {
  warnings : list Warning;
  riskScore : Z;
  riskLevel : option RiskLevel
}.
End AnalysisResult.

(** ** The engine object and the monad of its methods *)

Record RiskEngine : Type := {
  thresholds : Thresholds;
  warnings : list Warning
}.

(** The seven detector methods. *)
Inductive Detector : Type :=
| CheckOvertrading
| CheckLossStreak
| CheckRapidTrading
| CheckMartingalePattern
| CheckBalanceDepletion
| CheckBotActivity
| CheckUnusualHours.

(** The state a method runs in: the engine object ([this]) and a ghost log
    of the detector methods entered so far, most recent last.  The log has
    no counterpart in the source; it only records which methods ran. *)
Record World : Type := {
  this : RiskEngine;
  invoked : list Detector
}.

Definition M (A : Type) : Type := World -> A * World.

Definition ret {A} (a : A) : M A := fun w => (a, w).

Definition bind {A B} (m : M A) (k : A -> M B) : M B :=
  fun w => let (a, w') := m w in k a w'.

Notation "x <- m ;; k" := (bind m (fun x => k))
  (at level 61, m at next level, right associativity).
Notation "m ;; k" := (bind m (fun _ => k))
  (at level 61, right associativity).

(** [this.thresholds] *)
Definition getThresholds : M Thresholds :=
  fun w => (thresholds (this w), w).

(** [this.warnings] *)
Definition getWarnings : M (list Warning) :=
  fun w => (warnings (this w), w).

(** [this.warnings = ws] *)
Definition setWarnings (ws : list Warning) : M unit :=
  fun w => (tt, {| this := {| thresholds := thresholds (this w); warnings := ws |};
                   invoked := invoked w |}).

(** [this.warnings.push(x)] *)
Definition push (x : Warning) : M unit :=
  fun w => (tt, {| this := {| thresholds := thresholds (this w);
                              warnings := warnings (this w) ++ [x] |};
                   invoked := invoked w |}).

(** Ghost: entry of a detector method. *)
Definition enter (d : Detector) : M unit :=
  fun w => (tt, {| this := this w; invoked := invoked w ++ [d] |}).

(** [if (c) { m }] *)
Definition when (c : bool) (m : M unit) : M unit :=
  if c then m else ret tt.

(** [for (let i = lo; i < hi; i++) acc = body i acc] on a local variable *)
Definition for_range {S} (lo hi : nat) (body : nat -> S -> S) (init : S) : S :=
  fold_left (fun acc i => body i acc) (seq lo (hi - lo)) init.

(** ** Array.prototype.sort with a comparator

    The sort is stable: an element moves in front of another only when the
    comparator is positive on the pair taken in their current order. *)
Section Sort.
Variable A : Type.
Variable compare : A -> A -> Z.

Fixpoint insert (x : A) (l : list A) : list A :=
  match l with
  | [] => [x]
  | y :: l' => if (compare x y <=? 0)%Z then x :: l else y :: insert x l'
  end.

Definition sort (l : list A) : list A := fold_right insert [] l.
End Sort.

(** ** Date

    The local clock: [now] is the reading of [new Date()] in milliseconds
    since the epoch, [offset t] the local zone's offset from UTC, in
    milliseconds, in force at the instant [t].  A Date holds a time value of
    at most 8.64e15 milliseconds either way; beyond, it is an Invalid Date. *)
Record Clock : Type := {
  now : Z;
  offset : Z -> Z
}.

Definition msPerDay : Z := 86400000.
Definition msPerHour : Z := 3600000.

(** The largest time value of a Date. *)
Definition maxTime : Z := 8640000000000000.

(** [new Date(ms)] is a valid Date. *)
Definition validTime (ms : Z) : bool := (Z.abs ms <=? maxTime)%Z.

Definition localTime (c : Clock) (ms : Z) : Z := (ms + offset c ms)%Z.

(** [new Date(ms).toDateString()]: the text names the local calendar day
    (weekday, month, day, year), which is kept as the day's number; [None]
    is the text of an Invalid Date. *)
Definition toDateString (c : Clock) (ms : Z) : option Z :=
  if validTime ms then Some (localTime c ms / msPerDay)%Z else None.

(** [a === b] on two such texts *)
Definition sameText (a b : option Z) : bool :=
  match a, b with
  | Some x, Some y => (x =? y)%Z
  | None, None => true
  | _, _ => false
  end.

(** [new Date(ms).getHours()]; [None] is the NaN of an Invalid Date. *)
Definition getHours (c : Clock) (ms : Z) : option Z :=
  if validTime ms then Some ((localTime c ms mod msPerDay) / msPerHour)%Z else None.

(** [hour >= 0 && hour < 6]; both tests fail on NaN. *)
Definition beforeSix (hour : option Z) : bool :=
  match hour with
  | Some h => ((0 <=? h) && (h <? 6))%Z
  | None => false
  end.

(** ** class RiskEngine *)

Definition defaultThresholds : Thresholds := {|
  maxDailyTrades := of_Z 50;
  maxLossStreak := of_Z 5;
  maxPositionPercent := of_Z 10;
  minTimeBetweenTrades := of_Z 10;
  martingaleMultiplier := round (9 # 5);
  balanceDropPercent := of_Z 20;
  botTradeInterval := of_Z 2
|}.

(** [constructor()] *)
Definition newRiskEngine : RiskEngine := {|
  thresholds := defaultThresholds;
  warnings := []
|}.

Definition override (old : num) (new : option num) : num :=
  match new with
  | Some v => v
  | None => old
  end.

(** [{ ...this.thresholds, ...newThresholds }] *)
Definition spread (old : Thresholds) (new : PartialThresholds) : Thresholds := {|
  maxDailyTrades := override (maxDailyTrades old) (maxDailyTrades' new);
  maxLossStreak := override (maxLossStreak old) (maxLossStreak' new);
  maxPositionPercent := override (maxPositionPercent old) (maxPositionPercent' new);
  minTimeBetweenTrades := override (minTimeBetweenTrades old) (minTimeBetweenTrades' new);
  martingaleMultiplier := override (martingaleMultiplier old) (martingaleMultiplier' new);
  balanceDropPercent := override (balanceDropPercent old) (balanceDropPercent' new);
  botTradeInterval := override (botTradeInterval old) (botTradeInterval' new)
|}.

Definition setThresholds (newThresholds : PartialThresholds) : M unit :=
  fun w => (tt, {| this := {| thresholds := spread (thresholds (this w)) newThresholds;
                              warnings := warnings (this w) |};
                   invoked := invoked w |}).

(** An argument that may be absent ([undefined]); in arithmetic an absent
    number reads as NaN. *)
Definition toNumber (v : option num) : num :=
  match v with
  | Some n => n
  | None => NaN
  end.

Definition checkOvertrading (clock : Clock) (trades : list Trade.t) : M unit :=
  enter CheckOvertrading ;;
  let today := toDateString clock (now clock) in
  let todayTrades :=
    filter (fun t => sameText (toDateString clock (Trade.purchase_time t * 1000)) today)
           trades in
  th <- getThresholds ;;
  when (of_nat (length todayTrades) >? maxDailyTrades th)%num
    (push {| type := OVERTRADING;
             level := HIGH;
             message := HighTradingFrequency (length todayTrades) (maxDailyTrades th);
             value := of_nat (length todayTrades);
             isBotLikely := None;
             contractId := None |}).

(** A trade's test in the streak loop: [trade.sell_price < trade.buy_price]. *)
Definition isLoss (trade : Trade.t) : bool :=
  (Trade.sell_price trade <? Trade.buy_price trade)%num.

(** The body of the loop of [checkLossStreak] on its two locals
    [(currentStreak, maxStreak)]. *)
Definition streakStep (st : nat * nat) (trade : Trade.t) : nat * nat :=
  let '(currentStreak, maxStreak) := st in
  if isLoss trade
  then (S currentStreak, Nat.max maxStreak (S currentStreak))
  else (0, maxStreak).

(** [let currentStreak = 0; let maxStreak = 0; for (const trade of trades) ...] *)
Definition lossStreakLoop (trades : list Trade.t) : nat * nat :=
  fold_left streakStep trades (0, 0).

Definition checkLossStreak (trades : list Trade.t) : M unit :=
  enter CheckLossStreak ;;
  let maxStreak := snd (lossStreakLoop trades) in
  th <- getThresholds ;;
  when (of_nat maxStreak >=? maxLossStreak th)%num
    (push {| type := HIGH_LOSS_STREAK;
             level := if 8 <=? maxStreak then CRITICAL else HIGH;
             message := ConsecutiveLosses maxStreak;
             value := of_nat maxStreak;
             isBotLikely := None;
             contractId := None |}).

(** [(a, b) => a.purchase_time - b.purchase_time] *)
Definition byPurchaseTime (a b : Trade.t) : Z :=
  (Trade.purchase_time a - Trade.purchase_time b)%Z.

(** The body shared by the index loops: it reads [sortedTrades[i - 1]] and
    [sortedTrades[i]] and bumps the counter when [test] holds of the pair.
    Both indices are inside the array for every [i] the loops reach. *)
Definition countStep (sortedTrades : list Trade.t)
    (test : Trade.t -> Trade.t -> bool) (i count : nat) : nat :=
  match nth_error sortedTrades (i - 1), nth_error sortedTrades i with
  | Some prevTrade, Some currTrade =>
      if test prevTrade currTrade then S count else count
  | _, _ => count
  end.

Definition rapidTest (th : Thresholds) (prevTrade currTrade : Trade.t) : bool :=
  let timeDiff := (Trade.purchase_time currTrade - Trade.purchase_time prevTrade)%Z in
  (of_Z timeDiff <? minTimeBetweenTrades th)%num.

Definition checkRapidTrading (trades : list Trade.t) : M unit :=
  enter CheckRapidTrading ;;
  let sortedTrades := sort byPurchaseTime trades in
  th <- getThresholds ;;
  let rapidCount :=
    for_range 1 (length sortedTrades) (countStep sortedTrades (rapidTest th)) 0 in
  when (5 <? rapidCount)
    (push {| type := RAPID_TRADING;
             level := MEDIUM;
             message := RapidTradingDetected rapidCount (minTimeBetweenTrades th);
             value := of_nat rapidCount;
             isBotLikely := None;
             contractId := None |}).

Definition martingaleTest (th : Thresholds) (prevTrade currTrade : Trade.t) : bool :=
  (Trade.sell_price prevTrade <? Trade.buy_price prevTrade)%num &&
  (Trade.buy_price currTrade >=? Trade.buy_price prevTrade * martingaleMultiplier th)%num.

(** The counter of [checkMartingalePattern] when its loop ends. *)
Definition martingaleCount (th : Thresholds) (trades : list Trade.t) : nat :=
  let sortedTrades := sort byPurchaseTime trades in
  for_range 1 (length sortedTrades) (countStep sortedTrades (martingaleTest th)) 0.

Definition checkMartingalePattern (trades : list Trade.t) : M unit :=
  enter CheckMartingalePattern ;;
  th <- getThresholds ;;
  let martingaleCount := martingaleCount th trades in
  when (3 <=? martingaleCount)
    (push {| type := MARTINGALE_PATTERN;
             level := CRITICAL;
             message := MartingaleDetected martingaleCount;
             value := of_nat martingaleCount;
             isBotLikely := None;
             contractId := None |}).

Definition checkBalanceDepletion (currentBalance initialBalance : option num) : M unit :=
  enter CheckBalanceDepletion ;;
  if negb (truthy (toNumber initialBalance)) || (toNumber initialBalance === of_Z 0)%num
  then ret tt
  else
    let dropPercent :=
      ((toNumber initialBalance - toNumber currentBalance) / toNumber initialBalance
       * of_Z 100)%num in
    th <- getThresholds ;;
    when (dropPercent >=? balanceDropPercent th)%num
      (push {| type := BALANCE_DEPLETION;
               level := if (dropPercent >=? of_Z 50)%num then CRITICAL else HIGH;
               message := SignificantBalanceDrop dropPercent;
               value := dropPercent;
               isBotLikely := None;
               contractId := None |}).

Definition botTest (th : Thresholds) (prevTrade currTrade : Trade.t) : bool :=
  let timeDiff := (Trade.purchase_time currTrade - Trade.purchase_time prevTrade)%Z in
  (of_Z timeDiff <=? botTradeInterval th)%num.

(** The counter of [checkBotActivity] when its loop ends. *)
Definition suspiciousIntervals (th : Thresholds) (trades : list Trade.t) : nat :=
  let sortedTrades := sort byPurchaseTime trades in
  for_range 1 (Nat.min (length sortedTrades) 20)
            (countStep sortedTrades (botTest th)) 0.

Definition checkBotActivity (trades : list Trade.t) : M unit :=
  enter CheckBotActivity ;;
  th <- getThresholds ;;
  let suspiciousIntervals := suspiciousIntervals th trades in
  when (5 <=? suspiciousIntervals)
    (push {| type := BOT_ACTIVITY;
             level := MEDIUM;
             message := PotentialBotActivity suspiciousIntervals (botTradeInterval th);
             value := of_nat suspiciousIntervals;
             isBotLikely := Some true;
             contractId := None |}).

Definition checkUnusualHours (clock : Clock) (trades : list Trade.t) : M unit :=
  enter CheckUnusualHours ;;
  let unusualHourTrades :=
    filter (fun trade =>
              let hour := getHours clock (Trade.purchase_time trade * 1000) in
              beforeSix hour)
           trades in
  when (10 <=? length unusualHourTrades)
    (push {| type := UNUSUAL_HOURS;
             level := LOW;
             message := UnusualHoursTrading (length unusualHourTrades);
             value := of_nat (length unusualHourTrades);
             isBotLikely := None;
             contractId := None |}).

(** [for (const x of xs) acc = body x acc], the body running in the monad *)
Fixpoint for_of {A S} (xs : list A) (body : A -> S -> M S) (acc : S) : M S :=
  match xs with
  | [] => ret acc
  | x :: xs' => acc' <- body x acc ;; for_of xs' body acc'
  end.

(** The body of the loop of [analyzeOpenPositions] on its local
    [positionWarnings]. *)
Definition positionStep (balance : num) (position : Position.t)
    (positionWarnings : list Warning) : M (list Warning) :=
  let positionPercent := (Position.buy_price position / balance * of_Z 100)%num in
  th <- getThresholds ;;
  if (positionPercent >? maxPositionPercent th)%num
  then ret (positionWarnings ++
            [{| type := LARGE_POSITION;
                level := if (positionPercent >? of_Z 25)%num then CRITICAL else HIGH;
                message := LargePosition positionPercent (Position.contract_id position);
                value := positionPercent;
                isBotLikely := None;
                contractId := Some (Position.contract_id position) |}])
  else ret positionWarnings.

Definition analyzeOpenPositions (positions : list Position.t) (balance : num)
  : M (list Warning) :=
  for_of positions (positionStep balance) [].

(** The [switch] of [calculateOverallRiskScore]. *)
Definition addPoints (score : Z) (warning : Warning) : Z :=
  match level warning with
  | LOW => score + 5
  | MEDIUM => score + 15
  | HIGH => score + 30
  | CRITICAL => score + 50
  end%Z.

Definition calculateOverallRiskScore : M Z :=
  ws <- getWarnings ;;
  let score := fold_left addPoints ws 0%Z in
  ret (Z.min score 100).

Definition getRiskLevel (score : Z) : RiskLevel :=
  if (70 <=? score)%Z then CRITICAL
  else if (40 <=? score)%Z then HIGH
  else if (20 <=? score)%Z then MEDIUM
  else LOW.

(** [trades] is [None] when the argument is absent. *)
Definition analyzeTradeHistory (clock : Clock) (trades : option (list Trade.t))
    (currentBalance initialBalance : option num) : M AnalysisResult.t :=
  setWarnings [] ;;
  match trades with
  | None => ret (AnalysisResult.mk [] 0 None)
  | Some trades =>
      if length trades =? 0
      then ret (AnalysisResult.mk [] 0 None)
      else
        checkOvertrading clock trades ;;
        checkLossStreak trades ;;
        checkRapidTrading trades ;;
        checkMartingalePattern trades ;;
        checkBalanceDepletion currentBalance initialBalance ;;
        checkBotActivity trades ;;
        checkUnusualHours clock trades ;;
        riskScore <- calculateOverallRiskScore ;;
        ws <- getWarnings ;;
        ret (AnalysisResult.mk ws riskScore (Some (getRiskLevel riskScore)))
  end.

(** [export const riskEngine = new RiskEngine()] *)
Definition riskEngine : World := {| this := newRiskEngine; invoked := [] |}.

(** * Notions the statements are written with *)

(** What a detector call does to the world: it logs its entry and appends
    the warnings [ws] to [this.warnings]. *)
Definition emit (d : Detector) (ws : list Warning) (w : World) : World :=
  {| this := {| thresholds := thresholds (this w);
                warnings := warnings (this w) ++ ws |};
     invoked := invoked w ++ [d] |}.

(** Ascending purchase time. *)
Definition timeLe (a b : Trade.t) : Prop :=
  (Trade.purchase_time a <= Trade.purchase_time b)%Z.

(** Trades bought at the instant [k], in the order they have in [l]. *)
Definition boughtAt (k : Z) (l : list Trade.t) : list Trade.t :=
  filter (fun t => (Trade.purchase_time t =? k)%Z) l.

(** The pairs [(l[i-1], l[i])] of a list, in order. *)
Fixpoint adjacentPairs {A} (l : list A) : list (A * A) :=
  match l with
  | x :: (y :: _) as l' => (x, y) :: adjacentPairs l'
  | _ => []
  end.

(** The number of adjacent pairs of [l] that pass [test]. *)
Definition countAdjacent {A} (test : A -> A -> bool) (l : list A) : nat :=
  length (filter (fun pc => test (fst pc) (snd pc)) (adjacentPairs l)).

(** [seg] is a run of consecutive losses of [trades]: a block of adjacent
    trades, in the order given, each with [sell_price < buy_price]. *)
Definition lossRun (trades seg : list Trade.t) : Prop :=
  (exists pre post, trades = pre ++ seg ++ post) /\ forallb isLoss seg = true.

(** [seg] is a run of losses that ends with the last trade of [trades]. *)
Definition lossTail (trades seg : list Trade.t) : Prop :=
  (exists pre, trades = pre ++ seg) /\ forallb isLoss seg = true.

(** [m] is the length of the longest run of consecutive losses. *)
Definition longestLossRun (trades : list Trade.t) (m : nat) : Prop :=
  (exists seg, lossRun trades seg /\ length seg = m) /\
  (forall seg, lossRun trades seg -> length seg <= m).

(** The invariant of the loop after the trades [p]: [currentStreak] is the
    length of the longest run of losses ending [p], [maxStreak] the length
    of the longest run anywhere in [p]. *)
Definition streakInv (p : list Trade.t) (st : nat * nat) : Prop :=
  (exists seg, lossTail p seg /\ length seg = fst st) /\
  (forall seg, lossTail p seg -> length seg <= fst st) /\
  longestLossRun p (snd st).

(** Severity-to-points mapping. *)
Definition points (l : RiskLevel) : Z :=
  match l with
  | LOW => 5
  | MEDIUM => 15
  | HIGH => 30
  | CRITICAL => 50
  end.

(** The sum of the points of a list of warnings. *)
Definition sumPoints (ws : list Warning) : Z :=
  fold_right Z.add 0%Z (map (fun w => points (level w)) ws).

(** Position of a level in the order LOW < MEDIUM < HIGH < CRITICAL. *)
Definition rank (l : RiskLevel) : nat :=
  match l with
  | LOW => 0
  | MEDIUM => 1
  | HIGH => 2
  | CRITICAL => 3
  end.

(** The seven detector calls of [analyzeTradeHistory], in their order. *)
Definition detectors (clock : Clock) (trades : list Trade.t)
    (currentBalance initialBalance : option num) : M unit :=
  checkOvertrading clock trades ;;
  checkLossStreak trades ;;
  checkRapidTrading trades ;;
  checkMartingalePattern trades ;;
  checkBalanceDepletion currentBalance initialBalance ;;
  checkBotActivity trades ;;
  checkUnusualHours clock trades.

(** The world in which the score is computed: the warning list has been
    reset and the seven detectors have run. *)
Definition afterDetectors (clock : Clock) (trades : list Trade.t)
    (currentBalance initialBalance : option num) (w : World) : World :=
  snd (detectors clock trades currentBalance initialBalance
         (snd (setWarnings [] w))).

(** The outcome of [m] on the engine depends on the engine alone (not on the
    log of detector calls). *)
Definition respects {A} (m : M A) : Prop :=
  forall w1 w2, this w1 = this w2 ->
    fst (m w1) = fst (m w2) /\ this (snd (m w1)) = this (snd (m w2)).

(** [m] leaves [this.thresholds] as it found it. *)
Definition keepsThresholds {A} (m : M A) : Prop :=
  forall w, thresholds (this (snd (m w))) = thresholds (this w).

(** The alternative that the claim C8 rules out: 51 trades bought between
    12:00 and 13:24 UTC of 1 January 1970, analysed one second before and
    then at local midnight, on the engine with its default thresholds. *)
Definition noonTrades : list Trade.t :=
  map (fun i => Trade.mk (43200 + 100 * Z.of_nat i) (of_Z 10) (of_Z 10)) (seq 0 51).

Definition beforeMidnight : Clock := {| now := 86399000; offset := fun _ => 0%Z |}.
Definition atMidnight : Clock := {| now := 86400000; offset := fun _ => 0%Z |}.

(** A series of [analyzeOpenPositions] calls, one per pair of arguments. *)
Definition openPositionQueries (calls : list (list Position.t * num)) : M unit :=
  for_of calls
    (fun call _ => analyzeOpenPositions (fst call) (snd call) ;; ret tt) tt.

(** Five trades bought at 10 and sold at 8, and eight of them. *)
Definition fiveLosses : list Trade.t := repeat (Trade.mk 0 (of_Z 10) (of_Z 8)) 5.
Definition eightLosses : list Trade.t := repeat (Trade.mk 0 (of_Z 10) (of_Z 8)) 8.

(** The stakes of the martingale example, one trade a minute: a loss at 10,
    then 20, a loss at 10, then 18, a loss at 10, then 20. *)
Definition martingaleExample : list Trade.t :=
  [ Trade.mk 60 (of_Z 10) (of_Z 8);  Trade.mk 120 (of_Z 20) (of_Z 25);
    Trade.mk 180 (of_Z 10) (of_Z 8); Trade.mk 240 (of_Z 18) (of_Z 18);
    Trade.mk 300 (of_Z 10) (of_Z 8); Trade.mk 360 (of_Z 20) (of_Z 5) ].

(** Stakes that are no integers: three times a loss at 1.1 followed by a
    stake of 1.98. *)
Definition roundedStakes : list Trade.t :=
  [ Trade.mk 60 (round (11 # 10)) (of_Z 1);  Trade.mk 120 (round (99 # 50)) (of_Z 3);
    Trade.mk 180 (round (11 # 10)) (of_Z 1); Trade.mk 240 (round (99 # 50)) (of_Z 3);
    Trade.mk 300 (round (11 # 10)) (of_Z 1); Trade.mk 360 (round (99 # 50)) (of_Z 3) ].

(** Every trade of [examined] was bought no later than every trade of [rest]. *)
Definition noLaterThan (examined rest : list Trade.t) : Prop :=
  forall a b, In a examined -> In b rest -> timeLe a b.

(** Six trades one second apart. *)
Definition burst (start : Z) : list Trade.t :=
  map (fun i => Trade.mk (start + Z.of_nat i) (of_Z 10) (of_Z 10)) (seq 0 6).

(** Twenty trades a hundred seconds apart, from the instant 0 on. *)
Definition slowTrades : list Trade.t :=
  map (fun i => Trade.mk (100 * Z.of_nat i) (of_Z 10) (of_Z 10)) (seq 0 20).

(** [position.buy_price / balance * 100] *)
Definition positionPercent (balance : num) (position : Position.t) : num :=
  (Position.buy_price position / balance * of_Z 100)%num.

(** The warning pushed for a position that is too large. *)
Definition largePositionWarning (balance : num) (position : Position.t) : Warning :=
  {| type := LARGE_POSITION;
     level := if (positionPercent balance position >? of_Z 25)%num
              then CRITICAL else HIGH;
     message := LargePosition (positionPercent balance position)
                              (Position.contract_id position);
     value := positionPercent balance position;
     isBotLikely := None;
     contractId := Some (Position.contract_id position) |}.

(** Three open positions: 150, 300 and 50. *)
Definition examplePositions : list Position.t :=
  [Position.mk (of_Z 150) 7; Position.mk (of_Z 300) 8; Position.mk (of_Z 50) 9].

(** The detector call [m] adds [d], and nothing else, to the log. *)
Definition logs (d : Detector) (m : M unit) : Prop :=
  forall w, invoked (snd (m w)) = invoked w ++ [d].

(** * Notions for the further properties *)

(** [ws] appended to [this.warnings]. *)
Definition pushAll (ws : list Warning) (w : World) : World :=
  {| this := {| thresholds := thresholds (this w);
                warnings := warnings (this w) ++ ws |};
     invoked := invoked w |}.

(** The trades [checkOvertrading] counts: those bought on the local day of
    the clock's reading. *)
Definition todayTrades (clock : Clock) (trades : list Trade.t) : list Trade.t :=
  filter (fun t => sameText (toDateString clock (Trade.purchase_time t * 1000))
                            (toDateString clock (now clock)))
         trades.

(** The trades [checkUnusualHours] counts. *)
Definition unusualHourTrades (clock : Clock) (trades : list Trade.t) : list Trade.t :=
  filter (fun trade =>
            let hour := getHours clock (Trade.purchase_time trade * 1000) in
            beforeSix hour)
         trades.

(** The counter of [checkRapidTrading] when its loop ends. *)
Definition rapidCount (th : Thresholds) (trades : list Trade.t) : nat :=
  let sortedTrades := sort byPurchaseTime trades in
  for_range 1 (length sortedTrades) (countStep sortedTrades (rapidTest th)) 0.

(** The type of warning each detector pushes. *)
Definition reports (d : Detector) : RiskType :=
  match d with
  | CheckOvertrading => OVERTRADING
  | CheckLossStreak => HIGH_LOSS_STREAK
  | CheckRapidTrading => RAPID_TRADING
  | CheckMartingalePattern => MARTINGALE_PATTERN
  | CheckBalanceDepletion => BALANCE_DEPLETION
  | CheckBotActivity => BOT_ACTIVITY
  | CheckUnusualHours => UNUSUAL_HOURS
  end.

(** The shape of a warning of the trade-history analysis: the levels its
    type can carry, no [contractId], and [isBotLikely] on bot activity only. *)
Definition historyShape (x : Warning) : bool :=
  match type x, level x, isBotLikely x, contractId x with
  | OVERTRADING, HIGH, None, None => true
  | HIGH_LOSS_STREAK, (HIGH | CRITICAL), None, None => true
  | RAPID_TRADING, MEDIUM, None, None => true
  | MARTINGALE_PATTERN, CRITICAL, None, None => true
  | BALANCE_DEPLETION, (HIGH | CRITICAL), None, None => true
  | BOT_ACTIVITY, MEDIUM, Some true, None => true
  | UNUSUAL_HOURS, LOW, None, None => true
  | _, _, _, _ => false
  end.

(** [ws] is empty or one warning of type [T] with the shape above. *)
Definition atMostOne (T : RiskType) (ws : list Warning) : Prop :=
  ws = [] \/ exists x, ws = [x] /\ type x = T /\ historyShape x = true.

(** The call [m] of the detector [d] logs its entry and appends at most one
    warning, of the type [d] reports; it changes nothing else. *)
Definition appendsAtMostOne (d : Detector) (m : M unit) : Prop :=
  forall w, exists ws, m w = (tt, emit d ws w) /\ atMostOne (reports d) ws.

Definition RiskType_eqb (a b : RiskType) : bool :=
  match a, b with
  | OVERTRADING, OVERTRADING | HIGH_LOSS_STREAK, HIGH_LOSS_STREAK
  | LARGE_POSITION, LARGE_POSITION | RAPID_TRADING, RAPID_TRADING
  | MARTINGALE_PATTERN, MARTINGALE_PATTERN | BALANCE_DEPLETION, BALANCE_DEPLETION
  | BOT_ACTIVITY, BOT_ACTIVITY | UNUSUAL_HOURS, UNUSUAL_HOURS => true
  | _, _ => false
  end.

(** [l] is [order] with some of its elements left out. *)
Fixpoint subsequence (l order : list RiskType) : bool :=
  match l, order with
  | [], _ => true
  | _ :: _, [] => false
  | a :: l', b :: order' =>
      if RiskType_eqb a b then subsequence l' order' else subsequence l order'
  end.

(** The types in the order in which [analyzeTradeHistory] can report them. *)
Definition reportOrder : list RiskType :=
  [OVERTRADING; HIGH_LOSS_STREAK; RAPID_TRADING; MARTINGALE_PATTERN;
   BALANCE_DEPLETION; BOT_ACTIVITY; UNUSUAL_HOURS].

(** ** The detectors as functions of the thresholds

    What each detector appends, written as a function of its arguments and
    of the thresholds it reads. *)

Definition overtradingBlock (clock : Clock) (trades : list Trade.t)
    (th : Thresholds) : list Warning :=
  let n := length (todayTrades clock trades) in
  if (of_nat n >? maxDailyTrades th)%num
  then [{| type := OVERTRADING; level := HIGH;
           message := HighTradingFrequency n (maxDailyTrades th);
           value := of_nat n; isBotLikely := None; contractId := None |}]
  else [].

Definition lossStreakBlock (trades : list Trade.t) (th : Thresholds) : list Warning :=
  let maxStreak := snd (lossStreakLoop trades) in
  if (of_nat maxStreak >=? maxLossStreak th)%num
  then [{| type := HIGH_LOSS_STREAK;
           level := if 8 <=? maxStreak then CRITICAL else HIGH;
           message := ConsecutiveLosses maxStreak;
           value := of_nat maxStreak; isBotLikely := None; contractId := None |}]
  else [].

Definition rapidTradingBlock (trades : list Trade.t) (th : Thresholds) : list Warning :=
  let n := rapidCount th trades in
  if 5 <? n
  then [{| type := RAPID_TRADING; level := MEDIUM;
           message := RapidTradingDetected n (minTimeBetweenTrades th);
           value := of_nat n; isBotLikely := None; contractId := None |}]
  else [].

Definition martingaleBlock (trades : list Trade.t) (th : Thresholds) : list Warning :=
  let n := martingaleCount th trades in
  if 3 <=? n
  then [{| type := MARTINGALE_PATTERN; level := CRITICAL;
           message := MartingaleDetected n;
           value := of_nat n; isBotLikely := None; contractId := None |}]
  else [].

(** [(initialBalance - currentBalance) / initialBalance * 100] *)
Definition dropPercent (currentBalance initialBalance : option num) : num :=
  ((toNumber initialBalance - toNumber currentBalance) / toNumber initialBalance
   * of_Z 100)%num.

Definition balanceDepletionBlock (currentBalance initialBalance : option num)
    (th : Thresholds) : list Warning :=
  if negb (truthy (toNumber initialBalance)) || (toNumber initialBalance === of_Z 0)%num
  then []
  else
    let drop := dropPercent currentBalance initialBalance in
    if (drop >=? balanceDropPercent th)%num
    then [{| type := BALANCE_DEPLETION;
             level := if (drop >=? of_Z 50)%num then CRITICAL else HIGH;
             message := SignificantBalanceDrop drop;
             value := drop; isBotLikely := None; contractId := None |}]
    else [].

Definition botActivityBlock (trades : list Trade.t) (th : Thresholds) : list Warning :=
  let n := suspiciousIntervals th trades in
  if 5 <=? n
  then [{| type := BOT_ACTIVITY; level := MEDIUM;
           message := PotentialBotActivity n (botTradeInterval th);
           value := of_nat n; isBotLikely := Some true; contractId := None |}]
  else [].

Definition unusualHoursBlock (clock : Clock) (trades : list Trade.t) : list Warning :=
  let n := length (unusualHourTrades clock trades) in
  if 10 <=? n
  then [{| type := UNUSUAL_HOURS; level := LOW;
           message := UnusualHoursTrading n;
           value := of_nat n; isBotLikely := None; contractId := None |}]
  else [].

(** The seven blocks in the order of the calls. *)
Definition historyWarnings (clock : Clock) (trades : list Trade.t)
    (currentBalance initialBalance : option num) (th : Thresholds) : list Warning :=
  overtradingBlock clock trades th ++ lossStreakBlock trades th ++
  rapidTradingBlock trades th ++ martingaleBlock trades th ++
  balanceDepletionBlock currentBalance initialBalance th ++
  botActivityBlock trades th ++ unusualHoursBlock clock trades.

(** The log after a full run of the detectors. *)
Definition allDetectors : list Detector :=
  [CheckOvertrading; CheckLossStreak; CheckRapidTrading; CheckMartingalePattern;
   CheckBalanceDepletion; CheckBotActivity; CheckUnusualHours].

(** The result of [analyzeTradeHistory] as a function of its arguments and
    of the thresholds. *)
Definition analysisOf (clock : Clock) (trades : option (list Trade.t))
    (currentBalance initialBalance : option num) (th : Thresholds)
  : AnalysisResult.t :=
  match trades with
  | Some ((_ :: _) as ts) =>
      let ws := historyWarnings clock ts currentBalance initialBalance th in
      let riskScore := Z.min (sumPoints ws) 100 in
      AnalysisResult.mk ws riskScore (Some (getRiskLevel riskScore))
  | _ => AnalysisResult.mk [] 0 None
  end.

(** [{}] *)
Definition noOverrides : PartialThresholds := {|
  maxDailyTrades' := None; maxLossStreak' := None; maxPositionPercent' := None;
  minTimeBetweenTrades' := None; martingaleMultiplier' := None;
  balanceDropPercent' := None; botTradeInterval' := None
|}.

(** [{ maxPositionPercent: v }] *)
Definition onlyMaxPositionPercent (v : num) : PartialThresholds := {|
  maxDailyTrades' := None; maxLossStreak' := None; maxPositionPercent' := Some v;
  minTimeBetweenTrades' := None; martingaleMultiplier' := None;
  balanceDropPercent' := None; botTradeInterval' := None
|}.

(** [{ maxDailyTrades: v }] *)
Definition onlyMaxDailyTrades (v : num) : PartialThresholds := {|
  maxDailyTrades' := Some v; maxLossStreak' := None; maxPositionPercent' := None;
  minTimeBetweenTrades' := None; martingaleMultiplier' := None;
  balanceDropPercent' := None; botTradeInterval' := None
|}.

Definition orElse (new old : option num) : option num :=
  match new with
  | Some v => Some v
  | None => old
  end.

(** [{ ...p, ...q }]: the keys of [q], and those of [p] that [q] lacks. *)
Definition mergePartial (p q : PartialThresholds) : PartialThresholds := {|
  maxDailyTrades' := orElse (maxDailyTrades' q) (maxDailyTrades' p);
  maxLossStreak' := orElse (maxLossStreak' q) (maxLossStreak' p);
  maxPositionPercent' := orElse (maxPositionPercent' q) (maxPositionPercent' p);
  minTimeBetweenTrades' := orElse (minTimeBetweenTrades' q) (minTimeBetweenTrades' p);
  martingaleMultiplier' := orElse (martingaleMultiplier' q) (martingaleMultiplier' p);
  balanceDropPercent' := orElse (balanceDropPercent' q) (balanceDropPercent' p);
  botTradeInterval' := orElse (botTradeInterval' q) (botTradeInterval' p)
|}.

(** The object that holds every key of [th]. *)
Definition allKeys (th : Thresholds) : PartialThresholds := {|
  maxDailyTrades' := Some (maxDailyTrades th);
  maxLossStreak' := Some (maxLossStreak th);
  maxPositionPercent' := Some (maxPositionPercent th);
  minTimeBetweenTrades' := Some (minTimeBetweenTrades th);
  martingaleMultiplier' := Some (martingaleMultiplier th);
  balanceDropPercent' := Some (balanceDropPercent th);
  botTradeInterval' := Some (botTradeInterval th)
|}.

(** Two engines that hold the same two warnings in opposite orders. *)
Definition engineHolding (ws : list Warning) : World :=
  {| this := {| thresholds := defaultThresholds; warnings := ws |}; invoked := [] |}.

Definition streakWarning : Warning :=
  {| type := HIGH_LOSS_STREAK; level := CRITICAL; message := ConsecutiveLosses 8;
     value := of_nat 8; isBotLikely := None; contractId := None |}.

Definition hoursWarning : Warning :=
  {| type := UNUSUAL_HOURS; level := LOW; message := UnusualHoursTrading 12;
     value := of_nat 12; isBotLikely := None; contractId := None |}.

(** A win, bought at [time]. *)
Definition winAt (time : Z) : Trade.t := Trade.mk time (of_Z 10) (of_Z 12).

(** A loss, bought at [time]. *)
Definition lossAt (time : Z) : Trade.t := Trade.mk time (of_Z 10) (of_Z 8).

(** Five losses with a win after the second, and the same trades with the
    win first. *)
Definition brokenStreak : list Trade.t :=
  [lossAt 10; lossAt 20; winAt 30; lossAt 40; lossAt 50; lossAt 60].

Definition unbrokenStreak : list Trade.t :=
  [winAt 30; lossAt 10; lossAt 20; lossAt 40; lossAt 50; lossAt 60].

(** [a] is negative, a zero, or minus Infinity. *)
Definition nonPositive (a : num) : Prop :=
  match a with
  | Fin q => (q <= 0)%Q
  | NInf | NZero => True
  | PInf | NaN => False
  end.

(** The position's [buy_price] is a finite number with the property [P]. *)
Definition finitePrice (P : Q -> Prop) (p : Position.t) : Prop :=
  exists b, Position.buy_price p = Fin b /\ P b.

(** The warning a position gets when the balance is zero. *)
Definition infiniteExposure (p : Position.t) : Warning :=
  {| type := LARGE_POSITION; level := CRITICAL;
     message := LargePosition PInf (Position.contract_id p);
     value := PInf; isBotLikely := None;
     contractId := Some (Position.contract_id p) |}.

(** * The symbol helpers of the API service

    [extractSymbol] and the filter of [getTradeHistory] of the class
    [DerivAPIService].  A JavaScript string is kept as a Rocq string, a
    sequence of 8-bit characters; an argument that is [undefined] is [None]. *)

From Stdlib Require String.

Module Symbols.
Import String.
Local Open Scope string_scope.

(** [s.includes(sub)]: [sub] occurs in [s] at some position. *)
Fixpoint includes (s sub : string) : bool :=
  prefix sub s ||
  match s with
  | EmptyString => false
  | String _ s' => includes s' sub
  end.

(** The array [syntheticSymbols] of [getTradeHistory]. *)
Definition syntheticSymbols : list string :=
  ["R_10"; "R_25"; "R_50"; "R_75"; "R_100";
   "BOOM300"; "BOOM500"; "BOOM1000";
   "CRASH300"; "CRASH500"; "CRASH1000";
   "1HZ10V"; "1HZ25V"; "1HZ50V"; "1HZ75V"; "1HZ100V"].

(** The array [symbols] of [extractSymbol]. *)
Definition symbols : list string :=
  ["R_10"; "R_25"; "R_50"; "R_75"; "R_100";
   "BOOM300"; "BOOM500"; "BOOM1000";
   "CRASH300"; "CRASH500"; "CRASH1000";
   "1HZ10V"; "1HZ25V"; "1HZ50V"; "1HZ75V"; "1HZ100V"].

(** [x || 'UNKNOWN'] on a string that may be missing: the empty string is
    falsy. *)
Definition orUnknown (x : option string) : string :=
  match x with
  | Some s => if s =? "" then "UNKNOWN" else s
  | None => "UNKNOWN"
  end.

Definition extractSymbol (shortcode : option string) : string :=
  match shortcode with
  | None => "UNKNOWN"
  | Some sc =>
      if sc =? "" then "UNKNOWN"
      else
        let found := find (fun sym => includes sc sym) symbols in
        orUnknown found
  end.

(** [t => syntheticSymbols.some(sym => t.shortcode?.includes(sym))], on the
    [shortcode] of [t]. *)
Definition keepsShortcode (shortcode : option string) : bool :=
  match shortcode with
  | None => false
  | Some sc => existsb (fun sym => includes sc sym) syntheticSymbols
  end.

End Symbols.

(** * The reference of the Standard Library

    [Stdlib.Floats.SpecFloat] defines the operations of IEEE-754 on
    sign-mantissa-exponent triples; with 53 bits of precision and the
    exponent bound 1024 they are those of binary64.  The numbers of this
    file are read off such triples as follows. *)

From Stdlib Require SpecFloat.

Definition ofSpecFloat (x : SpecFloat.spec_float) : num :=
  match x with
  | SpecFloat.S754_zero s => zero s
  | SpecFloat.S754_infinity s => infinity s
  | SpecFloat.S754_nan => NaN
  | SpecFloat.S754_finite s m e =>
      let v := Qred (Qmake (Zpos m * 2 ^ Z.max e 0) (Z.to_pos (2 ^ Z.max (- e) 0))) in
      Fin (if s then (- v)%Q else v)
  end.

(** The integer [z] and its opposite as triples. *)
Definition int64 (z : positive) : SpecFloat.spec_float :=
  SpecFloat.S754_finite false z 0.
Definition negInt64 (z : positive) : SpecFloat.spec_float :=
  SpecFloat.S754_finite true z 0.

Definition div64 := SpecFloat.SFdiv 53 1024.
Definition mul64 := SpecFloat.SFmul 53 1024.
Definition sub64 := SpecFloat.SFsub 53 1024.

(** * Properties *)

(** ** The monad *)

Lemma bind_run {A B} (m : M A) (k : A -> M B) (w : World) :
  bind m k w = k (fst (m w)) (snd (m w)).
Proof. unfold bind. destruct (m w); reflexivity. Qed.

(** ** The sort *)

Section SortFacts.
Variable A : Type.
Variable compare : A -> A -> Z.

Lemma insert_perm (x : A) (l : list A) : Permutation (insert compare x l) (x :: l).
Proof.
  induction l as [|y l IH]; simpl.
  - apply Permutation_refl.
  - destruct (compare x y <=? 0)%Z.
    + apply Permutation_refl.
    + eapply perm_trans; [apply perm_skip, IH | apply perm_swap].
Qed.

Lemma sort_perm (l : list A) : Permutation (sort compare l) l.
Proof.
  induction l as [|x l IH]; simpl.
  - constructor.
  - eapply perm_trans; [apply insert_perm | apply perm_skip, IH].
Qed.

Lemma sort_length (l : list A) : length (sort compare l) = length l.
Proof. apply Permutation_length, sort_perm. Qed.
End SortFacts.

Lemma insert_HdRel (x a : Trade.t) (l : list Trade.t) :
  timeLe a x -> HdRel timeLe a l -> HdRel timeLe a (insert byPurchaseTime x l).
Proof.
  intros Hax Hl. destruct l as [|y l]; simpl.
  - constructor; exact Hax.
  - destruct (byPurchaseTime x y <=? 0)%Z.
    + constructor; exact Hax.
    + inversion Hl; subst. constructor; assumption.
Qed.

Lemma insert_sorted (x : Trade.t) (l : list Trade.t) :
  Sorted timeLe l -> Sorted timeLe (insert byPurchaseTime x l).
Proof.
  induction 1 as [|y l Hs IH Hhd]; simpl.
  - repeat constructor.
  - destruct (byPurchaseTime x y <=? 0)%Z eqn:E.
    + constructor; [constructor; assumption|].
      constructor. unfold timeLe, byPurchaseTime in *. lia.
    + constructor; [exact IH|].
      apply insert_HdRel; [|exact Hhd].
      unfold timeLe, byPurchaseTime in *. lia.
Qed.

Lemma sort_sorted (l : list Trade.t) : Sorted timeLe (sort byPurchaseTime l).
Proof.
  induction l as [|x l IH]; simpl.
  - constructor.
  - apply insert_sorted, IH.
Qed.

Lemma insert_boughtAt (k : Z) (x : Trade.t) (l : list Trade.t) :
  boughtAt k (insert byPurchaseTime x l) = boughtAt k (x :: l).
Proof.
  induction l as [|y l IH]; simpl.
  - reflexivity.
  - destruct (byPurchaseTime x y <=? 0)%Z eqn:E.
    + reflexivity.
    + simpl in *. rewrite IH.
      unfold byPurchaseTime in E.
      destruct (Trade.purchase_time x =? k)%Z eqn:Ex;
        destruct (Trade.purchase_time y =? k)%Z eqn:Ey; try reflexivity.
      exfalso. lia.
Qed.

(** The sort is stable: trades with the same purchase time keep their order. *)
Lemma sort_stable (k : Z) (l : list Trade.t) :
  boughtAt k (sort byPurchaseTime l) = boughtAt k l.
Proof.
  induction l as [|x l IH]; simpl.
  - reflexivity.
  - rewrite insert_boughtAt. unfold boughtAt in *. simpl. rewrite IH. reflexivity.
Qed.

(** ** The index loops count adjacent pairs *)

Lemma for_range_S {St} (lo hi : nat) (body : nat -> St -> St) (init : St) :
  lo <= hi ->
  for_range lo (S hi) body init = body hi (for_range lo hi body init).
Proof.
  intros Hle. unfold for_range.
  replace (S hi - lo) with (S (hi - lo)) by lia.
  rewrite seq_S, fold_left_app. simpl.
  replace (lo + (hi - lo)) with hi by lia. reflexivity.
Qed.

Lemma adjacentPairs_firstn_S {A} (l : list A) (n : nat) (p c : A) :
  nth_error l n = Some p ->
  nth_error l (S n) = Some c ->
  adjacentPairs (firstn (S (S n)) l) = adjacentPairs (firstn (S n) l) ++ [(p, c)].
Proof.
  revert n. induction l as [|x l IH]; intros n Hp Hc.
  - destruct n; discriminate.
  - destruct n as [|n].
    + simpl in Hp, Hc. injection Hp as <-.
      destruct l as [|y l]; [discriminate|]. simpl in Hc. injection Hc as <-.
      reflexivity.
    + simpl in Hp, Hc.
      destruct l as [|y l]; [destruct n; discriminate|].
      specialize (IH n Hp Hc).
      change (firstn (S (S (S n))) (x :: y :: l))
        with (x :: firstn (S (S n)) (y :: l)).
      change (firstn (S (S n)) (x :: y :: l)) with (x :: firstn (S n) (y :: l)).
      change (firstn (S (S n)) (y :: l)) with (y :: firstn (S n) l) in *.
      change (firstn (S n) (y :: l)) with (y :: firstn n l) in *.
      change (adjacentPairs (x :: y :: firstn (S n) l))
        with ((x, y) :: adjacentPairs (y :: firstn (S n) l)).
      change (adjacentPairs (x :: y :: firstn n l))
        with ((x, y) :: adjacentPairs (y :: firstn n l)).
      rewrite IH. reflexivity.
Qed.

Lemma countStep_loop (test : Trade.t -> Trade.t -> bool) (l : list Trade.t) (n : nat) :
  n <= length l ->
  for_range 1 n (countStep l test) 0 = countAdjacent test (firstn n l).
Proof.
  induction n as [|n IH]; intros Hn.
  - reflexivity.
  - destruct n as [|n].
    + destruct l; reflexivity.
    + rewrite for_range_S by lia. rewrite IH by lia.
      unfold countStep. replace (S n - 0) with (S n) by lia.
      replace (S n - 1) with n by lia.
      destruct (nth_error l n) as [p|] eqn:Hp;
        [|apply nth_error_None in Hp; lia].
      destruct (nth_error l (S n)) as [c|] eqn:Hc;
        [|apply nth_error_None in Hc; lia].
      unfold countAdjacent.
      rewrite (adjacentPairs_firstn_S l n Hp Hc), filter_app, length_app.
      simpl. destruct (test p c); simpl; lia.
Qed.

Lemma firstn_min_length {A} (l : list A) (k : nat) :
  firstn (Nat.min (length l) k) l = firstn k l.
Proof.
  destruct (Nat.le_ge_cases (length l) k) as [H|H].
  - rewrite Nat.min_l by exact H.
    rewrite firstn_all, firstn_all2 by exact H. reflexivity.
  - rewrite Nat.min_r by exact H. reflexivity.
Qed.

Lemma martingaleCount_adjacent (th : Thresholds) (trades : list Trade.t) :
  martingaleCount th trades =
  countAdjacent (martingaleTest th) (sort byPurchaseTime trades).
Proof.
  unfold martingaleCount. rewrite countStep_loop by lia.
  rewrite firstn_all. reflexivity.
Qed.

Lemma suspiciousIntervals_adjacent (th : Thresholds) (trades : list Trade.t) :
  suspiciousIntervals th trades =
  countAdjacent (botTest th) (firstn 20 (sort byPurchaseTime trades)).
Proof.
  unfold suspiciousIntervals. rewrite countStep_loop by lia.
  rewrite firstn_min_length. reflexivity.
Qed.

(** ** The loss-streak loop finds the longest run of losses *)

Lemma lossStreakLoop_snoc (p : list Trade.t) (t : Trade.t) :
  lossStreakLoop (p ++ [t]) = streakStep (lossStreakLoop p) t.
Proof. unfold lossStreakLoop. rewrite fold_left_app. simpl. reflexivity. Qed.

Lemma snoc_cases {A} (l : list A) : l = [] \/ exists l' x, l = l' ++ [x].
Proof.
  destruct l as [|a l]; [left; reflexivity|right].
  destruct (exists_last (l := a :: l)) as [l' [x E]]; [discriminate|].
  exists l', x. exact E.
Qed.

Lemma lossRun_snoc (p seg : list Trade.t) (t : Trade.t) :
  lossRun p seg -> lossRun (p ++ [t]) seg.
Proof.
  intros [[pre [post E]] Hl]. split; [|exact Hl].
  exists pre, (post ++ [t]). rewrite E, <- !app_assoc. reflexivity.
Qed.

Lemma lossTail_run (p seg : list Trade.t) : lossTail p seg -> lossRun p seg.
Proof.
  intros [[pre E] Hl]. split; [|exact Hl].
  exists pre, []. rewrite app_nil_r. exact E.
Qed.

(** A run of [p ++ [t]] lies inside [p] or ends with [t]. *)
Lemma lossRun_snoc_inv (p seg : list Trade.t) (t : Trade.t) :
  lossRun (p ++ [t]) seg -> lossRun p seg \/ lossTail (p ++ [t]) seg.
Proof.
  intros [[pre [post E]] Hl].
  destruct (snoc_cases post) as [->|[post' [x ->]]].
  - right. split; [|exact Hl]. exists pre. rewrite app_nil_r in E. exact E.
  - left. split; [|exact Hl]. exists pre, post'.
    rewrite !app_assoc in E. apply app_inj_tail in E as [E _].
    rewrite E, <- app_assoc. reflexivity.
Qed.

(** A non-empty tail of [p ++ [t]] is a tail of [p] followed by [t]. *)
Lemma lossTail_snoc_inv (p seg : list Trade.t) (t : Trade.t) :
  lossTail (p ++ [t]) seg ->
  seg = [] \/ exists seg', seg = seg' ++ [t] /\ lossTail p seg' /\ isLoss t = true.
Proof.
  intros [[pre E] Hl].
  destruct (snoc_cases seg) as [->|[seg' [x ->]]]; [left; reflexivity|right].
  rewrite app_assoc in E. apply app_inj_tail in E as [E <-].
  rewrite forallb_app in Hl. apply andb_true_iff in Hl as [Hl Ht].
  simpl in Ht. rewrite andb_true_r in Ht.
  exists seg'. repeat split; try assumption. exists pre. exact E.
Qed.

Lemma lossStreakLoop_inv (trades : list Trade.t) :
  streakInv trades (lossStreakLoop trades).
Proof.
  induction trades as [|t p IH] using rev_ind.
  - assert (Hnil : forall seg : list Trade.t, lossTail [] seg -> seg = []).
    { intros seg [[pre E] _]. symmetry in E. apply app_eq_nil in E. tauto. }
    assert (Hrun : forall seg : list Trade.t, lossRun [] seg -> seg = []).
    { intros seg [[pre [post E]] _]. symmetry in E.
      apply app_eq_nil in E as [_ E]. apply app_eq_nil in E. tauto. }
    repeat split.
    + exists []. repeat split. exists []. reflexivity.
    + intros seg H. rewrite (Hnil seg H). apply Nat.le_refl.
    + exists []. repeat split. exists [], []. reflexivity.
    + intros seg H. rewrite (Hrun seg H). apply Nat.le_refl.
  - rewrite lossStreakLoop_snoc.
    destruct (lossStreakLoop p) as [cur mx].
    destruct IH as [[tl [Htl Hlen]] [Hcur [[run [Hrun Hrlen]] Hmx]]].
    simpl in Hlen, Hcur, Hrlen, Hmx. unfold streakStep.
    assert (Htail : forall seg, lossTail (p ++ [t]) seg ->
                                length seg <= if isLoss t then S cur else 0).
    { intros seg H. apply lossTail_snoc_inv in H as [->|[seg' [-> [H Ht]]]].
      - simpl. lia.
      - rewrite Ht, length_app. simpl. specialize (Hcur seg' H). lia. }
    destruct (isLoss t) eqn:Ht; (split; [|split; [exact Htail|split]]); simpl.
    + exists (tl ++ [t]). split; [|rewrite length_app; simpl; lia].
      destruct Htl as [[pre E] Hl]. split.
      * exists pre. rewrite E, app_assoc. reflexivity.
      * rewrite forallb_app, Hl. simpl. rewrite Ht. reflexivity.
    + destruct (Nat.le_gt_cases (S cur) mx) as [Hle|Hgt].
      * exists run. split; [apply lossRun_snoc, Hrun|lia].
      * exists (tl ++ [t]). split; [|rewrite length_app; simpl; lia].
        apply lossTail_run. destruct Htl as [[pre E] Hl]. split.
        -- exists pre. rewrite E, app_assoc. reflexivity.
        -- rewrite forallb_app, Hl. simpl. rewrite Ht. reflexivity.
    + intros seg H. apply lossRun_snoc_inv in H as [H|H].
      * specialize (Hmx seg H). lia.
      * specialize (Htail seg H). lia.
    + exists []. repeat split. exists (p ++ [t]). rewrite app_nil_r. reflexivity.
    + exists run. split; [apply lossRun_snoc, Hrun|exact Hrlen].
    + intros seg H. apply lossRun_snoc_inv in H as [H|H].
      * exact (Hmx seg H).
      * specialize (Htail seg H). lia.
Qed.

Lemma lossStreakLoop_longest (trades : list Trade.t) :
  longestLossRun trades (snd (lossStreakLoop trades)).
Proof. apply lossStreakLoop_inv. Qed.

(** A trade sold at its buy price is not a loss. *)
Lemma num_lt_irrefl (a : num) : (a <? a)%num = false.
Proof.
  destruct a as [q| | | |]; unfold lt; cbn [norm]; try reflexivity.
  rewrite (proj2 (Qle_bool_iff q q)); [reflexivity|apply Qle_refl].
Qed.

(** ** The aggregator *)

Lemma addPoints_sum (ws : list Warning) (a : Z) :
  fold_left addPoints ws a = (a + sumPoints ws)%Z.
Proof.
  revert a. induction ws as [|x ws IH]; intros a; simpl.
  - unfold sumPoints. cbn [map fold_right]. lia.
  - rewrite IH. unfold sumPoints, addPoints. cbn [map fold_right].
    destruct (level x); cbn [points]; lia.
Qed.

Lemma sumPoints_nonneg (ws : list Warning) : (0 <= sumPoints ws)%Z.
Proof.
  induction ws as [|x ws IH]; unfold sumPoints in *; cbn [map fold_right].
  - lia.
  - destruct (level x); cbn [points]; lia.
Qed.

Lemma analyzeTradeHistory_run (clock : Clock) (trades : list Trade.t)
    (currentBalance initialBalance : option num) (w : World) :
  trades <> [] ->
  analyzeTradeHistory clock (Some trades) currentBalance initialBalance w =
  let w' := afterDetectors clock trades currentBalance initialBalance w in
  let ws := warnings (this w') in
  let riskScore := Z.min (fold_left addPoints ws 0%Z) 100 in
  (AnalysisResult.mk ws riskScore (Some (getRiskLevel riskScore)), w').
Proof.
  intros Hne. destruct trades as [|t trades]; [contradiction|].
  unfold analyzeTradeHistory, afterDetectors, detectors, calculateOverallRiskScore.
  change (length (t :: trades) =? 0) with false. cbv iota.
  rewrite !bind_run. reflexivity.
Qed.

Lemma getRiskLevel_cutoffs (score : Z) :
  ((70 <= score)%Z -> getRiskLevel score = CRITICAL) /\
  ((40 <= score < 70)%Z -> getRiskLevel score = HIGH) /\
  ((20 <= score < 40)%Z -> getRiskLevel score = MEDIUM) /\
  ((score < 20)%Z -> getRiskLevel score = LOW).
Proof.
  unfold getRiskLevel.
  destruct (70 <=? score)%Z eqn:E1; destruct (40 <=? score)%Z eqn:E2;
    destruct (20 <=? score)%Z eqn:E3; repeat split; intros; try reflexivity; lia.
Qed.

(** ** The log of detector calls *)

Lemma when_push_log (c : bool) (x : Warning) (w : World) :
  invoked (snd (when c (push x) w)) = invoked w.
Proof. destruct c; reflexivity. Qed.

Ltac detector_logs :=
  intros w; rewrite !bind_run; rewrite ?when_push_log; reflexivity.

Lemma checkOvertrading_logs clock trades :
  logs CheckOvertrading (checkOvertrading clock trades).
Proof. unfold checkOvertrading. detector_logs. Qed.

Lemma checkLossStreak_logs trades : logs CheckLossStreak (checkLossStreak trades).
Proof. unfold checkLossStreak. detector_logs. Qed.

Lemma checkRapidTrading_logs trades : logs CheckRapidTrading (checkRapidTrading trades).
Proof. unfold checkRapidTrading. detector_logs. Qed.

Lemma checkMartingalePattern_logs trades :
  logs CheckMartingalePattern (checkMartingalePattern trades).
Proof. unfold checkMartingalePattern. detector_logs. Qed.

Lemma checkBalanceDepletion_logs currentBalance initialBalance :
  logs CheckBalanceDepletion (checkBalanceDepletion currentBalance initialBalance).
Proof.
  unfold checkBalanceDepletion. intros w. rewrite bind_run.
  destruct (_ || _); [reflexivity|].
  rewrite bind_run, when_push_log. reflexivity.
Qed.

Lemma checkBotActivity_logs trades : logs CheckBotActivity (checkBotActivity trades).
Proof. unfold checkBotActivity. detector_logs. Qed.

Lemma checkUnusualHours_logs clock trades :
  logs CheckUnusualHours (checkUnusualHours clock trades).
Proof. unfold checkUnusualHours. detector_logs. Qed.

(** On a non-empty trade list the seven detectors are entered, in order. *)
Lemma nonempty_trades_enter_all_detectors (clock : Clock) (t : Trade.t)
    (trades : list Trade.t) (currentBalance initialBalance : option num) (w : World) :
  invoked (snd (analyzeTradeHistory clock (Some (t :: trades))
                  currentBalance initialBalance w))
  = invoked w ++ [CheckOvertrading; CheckLossStreak; CheckRapidTrading;
                  CheckMartingalePattern; CheckBalanceDepletion; CheckBotActivity;
                  CheckUnusualHours].
Proof.
  assert (Hne : t :: trades <> []) by discriminate.
  rewrite (analyzeTradeHistory_run clock currentBalance initialBalance w Hne).
  cbv zeta. cbn [snd]. unfold afterDetectors, detectors. rewrite !bind_run.
  rewrite checkUnusualHours_logs, checkBotActivity_logs, checkBalanceDepletion_logs,
    checkMartingalePattern_logs, checkRapidTrading_logs, checkLossStreak_logs,
    checkOvertrading_logs.
  cbn [setWarnings snd invoked]. rewrite <- !app_assoc. reflexivity.
Qed.

(** C2: when [trades] is absent or empty the call returns exactly
    [{ warnings: [], riskScore: 0 }], without a riskLevel, and it enters no
    detector: the warning list is reset, the log of detector calls and the
    thresholds are as before. *)
Theorem empty_trades_short_circuit (clock : Clock)
    (currentBalance initialBalance : option num) (w : World) :
  let reset := {| this := {| thresholds := thresholds (this w); warnings := [] |};
                  invoked := invoked w |} in
  analyzeTradeHistory clock None currentBalance initialBalance w
    = (AnalysisResult.mk [] 0 None, reset) /\
  analyzeTradeHistory clock (Some []) currentBalance initialBalance w
    = (AnalysisResult.mk [] 0 None, reset).
Proof. split; reflexivity. Qed.

Lemma getRiskLevel_monotone (s1 s2 : Z) :
  (s1 <= s2)%Z -> rank (getRiskLevel s1) <= rank (getRiskLevel s2).
Proof.
  intros H. unfold getRiskLevel.
  destruct (70 <=? s1)%Z eqn:A1; destruct (40 <=? s1)%Z eqn:A2;
    destruct (20 <=? s1)%Z eqn:A3;
    destruct (70 <=? s2)%Z eqn:B1; destruct (40 <=? s2)%Z eqn:B2;
    destruct (20 <=? s2)%Z eqn:B3; simpl; lia.
Qed.

Lemma getRiskLevel_steps (s : Z) :
  (getRiskLevel s = LOW <-> (s < 20)%Z) /\
  (getRiskLevel s = MEDIUM <-> (20 <= s < 40)%Z) /\
  (getRiskLevel s = HIGH <-> (40 <= s < 70)%Z) /\
  (getRiskLevel s = CRITICAL <-> (70 <= s)%Z).
Proof.
  unfold getRiskLevel.
  destruct (70 <=? s)%Z eqn:E1; destruct (40 <=? s)%Z eqn:E2;
    destruct (20 <=? s)%Z eqn:E3;
    repeat split; intros; try discriminate; try reflexivity; lia.
Qed.

(** C7: on a non-empty trade list the riskScore lies in [0, 100], and the
    riskLevel is [getRiskLevel] of the riskScore, a function of the score
    alone that never decreases as the score grows and changes value only at
    20, 40 and 70. *)
Theorem riskScore_in_range_level_step (clock : Clock) (trades : list Trade.t)
    (currentBalance initialBalance : option num) (w : World) :
  trades <> [] ->
  let result :=
    fst (analyzeTradeHistory clock (Some trades) currentBalance initialBalance w) in
  (0 <= AnalysisResult.riskScore result <= 100)%Z /\
  AnalysisResult.riskLevel result
    = Some (getRiskLevel (AnalysisResult.riskScore result)) /\
  (forall s1 s2 : Z, (s1 <= s2)%Z -> rank (getRiskLevel s1) <= rank (getRiskLevel s2)) /\
  (forall s : Z, getRiskLevel s = LOW <-> (s < 20)%Z) /\
  (forall s : Z, getRiskLevel s = MEDIUM <-> (20 <= s < 40)%Z) /\
  (forall s : Z, getRiskLevel s = HIGH <-> (40 <= s < 70)%Z) /\
  (forall s : Z, getRiskLevel s = CRITICAL <-> (70 <= s)%Z).
Proof.
  intros Hne result. subst result.
  rewrite (analyzeTradeHistory_run clock currentBalance initialBalance w Hne).
  cbv zeta. cbn [fst AnalysisResult.riskScore AnalysisResult.riskLevel].
  rewrite addPoints_sum, Z.add_0_l.
  set (ws := warnings (this (afterDetectors clock trades currentBalance initialBalance w))).
  pose proof (sumPoints_nonneg ws) as Hpos.
  split; [lia|]. split; [reflexivity|]. split; [exact getRiskLevel_monotone|].
  repeat split; intros; apply getRiskLevel_steps; assumption.
Qed.

Lemma riskScore_in_range_level_step_witness :
  let result :=
    fst (analyzeTradeHistory beforeMidnight (Some eightLosses) None None riskEngine) in
  (0 <= AnalysisResult.riskScore result <= 100)%Z /\
  AnalysisResult.riskLevel result = Some CRITICAL.
Proof.
  assert (Hne : eightLosses <> []) by discriminate.
  pose proof (riskScore_in_range_level_step beforeMidnight None None riskEngine Hne) as H.
  cbv zeta in H. destruct H as [Hrange [Hlevel _]].
  split; [exact Hrange|]. rewrite Hlevel. reflexivity.
Defined.

(** ** Which part of the world a method reads and writes *)

Lemma respects_ret {A} (a : A) : respects (ret a).
Proof. intros w1 w2 H. split; [reflexivity|exact H]. Qed.

Lemma respects_bind {A B} (m : M A) (k : A -> M B) :
  respects m -> (forall a, respects (k a)) -> respects (bind m k).
Proof.
  intros Hm Hk w1 w2 H. rewrite !bind_run.
  destruct (Hm w1 w2 H) as [Ha Hw]. rewrite Ha. apply Hk, Hw.
Qed.

Lemma respects_enter (d : Detector) : respects (enter d).
Proof. intros w1 w2 H. split; [reflexivity|exact H]. Qed.

Lemma respects_push (x : Warning) : respects (push x).
Proof. intros w1 w2 H. split; [reflexivity|]. simpl. rewrite H. reflexivity. Qed.

Lemma respects_setWarnings (ws : list Warning) : respects (setWarnings ws).
Proof. intros w1 w2 H. split; [reflexivity|]. simpl. rewrite H. reflexivity. Qed.

Lemma respects_getThresholds : respects getThresholds.
Proof. intros w1 w2 H. simpl. rewrite H. split; reflexivity. Qed.

Lemma respects_getWarnings : respects getWarnings.
Proof. intros w1 w2 H. simpl. rewrite H. split; reflexivity. Qed.

Lemma respects_when (c : bool) (m : M unit) : respects m -> respects (when c m).
Proof. intros Hm. destruct c; [exact Hm|apply respects_ret]. Qed.

Lemma respects_if {A} (c : bool) (m1 m2 : M A) :
  respects m1 -> respects m2 -> respects (if c then m1 else m2).
Proof. destruct c; tauto. Qed.

Lemma keeps_ret {A} (a : A) : keepsThresholds (ret a).
Proof. intros w. reflexivity. Qed.

Lemma keeps_bind {A B} (m : M A) (k : A -> M B) :
  keepsThresholds m -> (forall a, keepsThresholds (k a)) -> keepsThresholds (bind m k).
Proof. intros Hm Hk w. rewrite bind_run, Hk, Hm. reflexivity. Qed.

Lemma keeps_enter (d : Detector) : keepsThresholds (enter d).
Proof. intros w. reflexivity. Qed.

Lemma keeps_push (x : Warning) : keepsThresholds (push x).
Proof. intros w. reflexivity. Qed.

Lemma keeps_setWarnings (ws : list Warning) : keepsThresholds (setWarnings ws).
Proof. intros w. reflexivity. Qed.

Lemma keeps_getThresholds : keepsThresholds getThresholds.
Proof. intros w. reflexivity. Qed.

Lemma keeps_getWarnings : keepsThresholds getWarnings.
Proof. intros w. reflexivity. Qed.

Lemma keeps_when (c : bool) (m : M unit) : keepsThresholds m -> keepsThresholds (when c m).
Proof. intros Hm. destruct c; [exact Hm|apply keeps_ret]. Qed.

Lemma keeps_if {A} (c : bool) (m1 m2 : M A) :
  keepsThresholds m1 -> keepsThresholds m2 -> keepsThresholds (if c then m1 else m2).
Proof. destruct c; tauto. Qed.

Create HintDb engine discriminated.
#[local] Hint Resolve respects_ret respects_enter respects_push respects_setWarnings
  respects_getThresholds respects_getWarnings respects_when respects_if
  keeps_ret keeps_enter keeps_push keeps_setWarnings keeps_getThresholds
  keeps_getWarnings keeps_when keeps_if : engine.

Ltac engine_steps :=
  repeat first
    [ apply respects_bind; [|intro] | apply keeps_bind; [|intro]
    | apply respects_if | apply keeps_if
    | solve [auto with engine] ].

Lemma respects_analysis clock trades currentBalance initialBalance :
  respects (analyzeTradeHistory clock trades currentBalance initialBalance).
Proof.
  unfold analyzeTradeHistory, checkOvertrading, checkLossStreak, checkRapidTrading,
    checkMartingalePattern, checkBalanceDepletion, checkBotActivity,
    checkUnusualHours, calculateOverallRiskScore.
  apply respects_bind; [auto with engine|intros _].
  destruct trades as [trades|]; [|auto with engine].
  destruct (length trades =? 0); [auto with engine|].
  engine_steps.
Qed.

Lemma keeps_analysis clock trades currentBalance initialBalance :
  keepsThresholds (analyzeTradeHistory clock trades currentBalance initialBalance).
Proof.
  unfold analyzeTradeHistory, checkOvertrading, checkLossStreak, checkRapidTrading,
    checkMartingalePattern, checkBalanceDepletion, checkBotActivity,
    checkUnusualHours, calculateOverallRiskScore.
  apply keeps_bind; [auto with engine|intros _].
  destruct trades as [trades|]; [|auto with engine].
  destruct (length trades =? 0); [auto with engine|].
  engine_steps.
Qed.

(** The analysis reads the thresholds of the engine and nothing else of it:
    the warnings a previous call left behind do not matter. *)
Lemma analysis_reads_thresholds_only clock trades currentBalance initialBalance
    (w1 w2 : World) :
  thresholds (this w1) = thresholds (this w2) ->
  fst (analyzeTradeHistory clock trades currentBalance initialBalance w1)
    = fst (analyzeTradeHistory clock trades currentBalance initialBalance w2) /\
  this (snd (analyzeTradeHistory clock trades currentBalance initialBalance w1))
    = this (snd (analyzeTradeHistory clock trades currentBalance initialBalance w2)).
Proof.
  intros Hth.
  pose (reset := fun w : World =>
          {| this := {| thresholds := thresholds (this w); warnings := [] |};
             invoked := invoked w |}).
  assert (Hreset : forall w,
            analyzeTradeHistory clock trades currentBalance initialBalance w =
            analyzeTradeHistory clock trades currentBalance initialBalance (reset w)).
  { intros w. unfold analyzeTradeHistory.
    rewrite (bind_run (setWarnings [])), (bind_run (setWarnings []) _ (reset w)).
    reflexivity. }
  rewrite (Hreset w1), (Hreset w2).
  apply respects_analysis. unfold reset. simpl. rewrite Hth. reflexivity.
Qed.

(** C1: on a non-empty trade list the warnings returned are those the
    seven detectors of this run push, one after the other, onto the list
    emptied at the start of the call, whatever the engine held before; the
    returned riskScore is the sum of the points (LOW 5, MEDIUM 15, HIGH 30,
    CRITICAL 50) of these warnings, capped at 100, and the returned riskLevel
    follows from that score by the cutoffs 70, 40 and 20.  A second run on
    the same input scores its own two warnings again (60), not four. *)
Theorem riskScore_is_clamped_sum (clock : Clock) (trades : list Trade.t)
    (currentBalance initialBalance : option num) (w : World) :
  trades <> [] ->
  let run := analyzeTradeHistory clock (Some trades) currentBalance initialBalance w in
  let result := fst run in
  let score := AnalysisResult.riskScore result in
  let emptied := {| this := {| thresholds := thresholds (this w); warnings := [] |};
                    invoked := invoked w |} in
  AnalysisResult.warnings result
  = warnings (this (snd (detectors clock trades currentBalance initialBalance emptied))) /\
  (forall w' : World, thresholds (this w') = thresholds (this w) ->
     fst (analyzeTradeHistory clock (Some trades) currentBalance initialBalance w')
     = result) /\
  AnalysisResult.warnings result = warnings (this (snd run)) /\
  score = Z.min (sumPoints (AnalysisResult.warnings result)) 100 /\
  (points LOW = 5 /\ points MEDIUM = 15 /\ points HIGH = 30 /\ points CRITICAL = 50)%Z /\
  ((100 <= sumPoints (AnalysisResult.warnings result))%Z -> score = 100%Z) /\
  ((70 <= score)%Z -> AnalysisResult.riskLevel result = Some CRITICAL) /\
  ((40 <= score < 70)%Z -> AnalysisResult.riskLevel result = Some HIGH) /\
  ((20 <= score < 40)%Z -> AnalysisResult.riskLevel result = Some MEDIUM) /\
  ((score < 20)%Z -> AnalysisResult.riskLevel result = Some LOW) /\
  (let first := analyzeTradeHistory beforeMidnight (Some fiveLosses)
                  (Some (of_Z 750)) (Some (of_Z 1000)) riskEngine in
   let second := analyzeTradeHistory beforeMidnight (Some fiveLosses)
                   (Some (of_Z 750)) (Some (of_Z 1000)) (snd first) in
   length (AnalysisResult.warnings (fst second)) = 2 /\
   AnalysisResult.riskScore (fst second) = 60%Z).
Proof.
  intros Hne run result score emptied.
  split.
  { subst result run.
    rewrite (analyzeTradeHistory_run clock currentBalance initialBalance w Hne).
    reflexivity. }
  split.
  { intros w' Hth. subst result run. apply analysis_reads_thresholds_only, Hth. }
  subst score result run.
  rewrite (analyzeTradeHistory_run clock currentBalance initialBalance w Hne).
  cbv zeta. cbn [fst snd AnalysisResult.warnings AnalysisResult.riskScore
                 AnalysisResult.riskLevel].
  rewrite addPoints_sum, Z.add_0_l.
  set (ws := warnings (this (afterDetectors clock trades currentBalance initialBalance w))).
  destruct (getRiskLevel_cutoffs (Z.min (sumPoints ws) 100)) as [H1 [H2 [H3 H4]]].
  split; [reflexivity|]. split; [reflexivity|]. split; [repeat split|].
  split; [intros H; lia|].
  split; [intros H; rewrite (H1 H); reflexivity|].
  split; [intros H; rewrite (H2 H); reflexivity|].
  split; [intros H; rewrite (H3 H); reflexivity|].
  split; [intros H; rewrite (H4 H); reflexivity|].
  vm_compute. split; reflexivity.
Qed.

Lemma riskScore_is_clamped_sum_witness :
  let result :=
    fst (analyzeTradeHistory beforeMidnight (Some fiveLosses)
           (Some (of_Z 750)) (Some (of_Z 1000)) riskEngine) in
  AnalysisResult.riskScore result = 60%Z /\
  AnalysisResult.riskScore result
    = Z.min (sumPoints (AnalysisResult.warnings result)) 100 /\
  AnalysisResult.riskLevel result = Some HIGH.
Proof.
  assert (Hne : fiveLosses <> []) by discriminate.
  pose proof (riskScore_is_clamped_sum beforeMidnight (Some (of_Z 750))
                (Some (of_Z 1000)) riskEngine Hne) as H.
  cbv zeta in H. destruct H as [_ [_ [_ [Hsum [_ [_ [_ [Hhigh _]]]]]]]].
  split; [reflexivity|]. split; [exact Hsum|].
  apply Hhigh. vm_compute. split; [discriminate|reflexivity].
Defined.

(** With the zone fixed, the analysis reads of the clock only the local
    calendar day. *)
Lemma analysis_reads_day_only (zone : Z -> Z) (now1 now2 : Z) trades
    currentBalance initialBalance (w : World) :
  let clock1 := {| now := now1; offset := zone |} in
  let clock2 := {| now := now2; offset := zone |} in
  toDateString clock1 now1 = toDateString clock2 now2 ->
  analyzeTradeHistory clock1 trades currentBalance initialBalance w
    = analyzeTradeHistory clock2 trades currentBalance initialBalance w.
Proof.
  intros clock1 clock2 Hday.
  assert (Hover : forall ts x, checkOvertrading clock1 ts x = checkOvertrading clock2 ts x).
  { intros ts x. subst clock1 clock2. unfold checkOvertrading. cbn [now].
    rewrite Hday. reflexivity. }
  unfold analyzeTradeHistory. rewrite !bind_run.
  destruct trades as [ts|]; [|reflexivity].
  destruct (length ts =? 0); [reflexivity|].
  rewrite !bind_run, Hover. reflexivity.
Qed.

(** C8, as stated, fails: two successive calls with the same trades, the same
    balances and the same thresholds differ when local midnight passes
    between them, since [checkOvertrading] counts the trades of the day on
    which it runs. *)
Lemma successive_calls_differ_across_midnight :
  let first := analyzeTradeHistory beforeMidnight (Some noonTrades) None None riskEngine in
  let second := analyzeTradeHistory atMidnight (Some noonTrades) None None (snd first) in
  AnalysisResult.riskScore (fst first) = 30%Z /\
  AnalysisResult.riskScore (fst second) = 0%Z /\
  fst second <> fst first.
Proof.
  vm_compute. repeat split; discriminate.
Qed.

(** C8 (amended): two successive calls with the same trades, the same
    balances, unchanged thresholds and made on the same local calendar day
    return the same result, whatever the engine held before the first call;
    the second call also leaves the engine as the first left it. *)
Theorem successive_calls_agree_same_day (zone : Z -> Z) (now1 now2 : Z)
    (trades : option (list Trade.t)) (currentBalance initialBalance : option num)
    (w : World) :
  let clock1 := {| now := now1; offset := zone |} in
  let clock2 := {| now := now2; offset := zone |} in
  toDateString clock1 now1 = toDateString clock2 now2 ->
  let first := analyzeTradeHistory clock1 trades currentBalance initialBalance w in
  let second :=
    analyzeTradeHistory clock2 trades currentBalance initialBalance (snd first) in
  fst second = fst first /\ this (snd second) = this (snd first).
Proof.
  intros clock1 clock2 Hday first second. subst first second.
  rewrite <- (analysis_reads_day_only zone now1 now2 trades currentBalance
                initialBalance _ Hday).
  apply analysis_reads_thresholds_only.
  apply keeps_analysis.
Qed.

Lemma successive_calls_agree_same_day_witness :
  let first := analyzeTradeHistory beforeMidnight (Some noonTrades) None None riskEngine in
  let second :=
    analyzeTradeHistory {| now := 86399500; offset := fun _ => 0%Z |}
      (Some noonTrades) None None (snd first) in
  fst second = fst first /\ this (snd second) = this (snd first).
Proof.
  apply (successive_calls_agree_same_day (fun _ => 0%Z) 86399000 86399500
           (Some noonTrades) None None riskEngine).
  reflexivity.
Defined.

(** ** The exposure evaluator leaves the engine alone *)

Lemma positionStep_frame (balance : num) (position : Position.t)
    (acc : list Warning) (w : World) :
  snd (positionStep balance position acc w) = w.
Proof.
  unfold positionStep. cbv zeta. rewrite bind_run. cbn [getThresholds fst snd].
  destruct (_ >? _)%num; reflexivity.
Qed.

Lemma analyzeOpenPositions_loop_frame (balance : num) (positions : list Position.t)
    (acc : list Warning) (w : World) :
  snd (for_of positions (positionStep balance) acc w) = w.
Proof.
  revert acc. induction positions as [|p ps IH]; intros acc.
  - reflexivity.
  - cbn [for_of]. rewrite bind_run, positionStep_frame. apply IH.
Qed.

Lemma analyzeOpenPositions_frame (positions : list Position.t) (balance : num)
    (w : World) :
  snd (analyzeOpenPositions positions balance w) = w.
Proof. apply analyzeOpenPositions_loop_frame. Qed.

(** C10: [analyzeOpenPositions] leaves the thresholds and the warning list of
    the engine (and the whole world) as they were, so a call of
    [analyzeTradeHistory] gives the same outcome after any series of
    [analyzeOpenPositions] calls as without them. *)
Theorem analyzeOpenPositions_leaves_engine (positions : list Position.t)
    (balance : num) (w : World) :
  snd (analyzeOpenPositions positions balance w) = w /\
  thresholds (this (snd (analyzeOpenPositions positions balance w)))
    = thresholds (this w) /\
  warnings (this (snd (analyzeOpenPositions positions balance w)))
    = warnings (this w) /\
  forall (calls : list (list Position.t * num)) (clock : Clock)
         (trades : option (list Trade.t)) (currentBalance initialBalance : option num),
    (openPositionQueries calls ;;
     analyzeTradeHistory clock trades currentBalance initialBalance) w
    = analyzeTradeHistory clock trades currentBalance initialBalance w.
Proof.
  rewrite analyzeOpenPositions_frame. repeat split.
  intros calls clock trades currentBalance initialBalance.
  rewrite bind_run.
  replace (snd (openPositionQueries calls w)) with w; [reflexivity|].
  unfold openPositionQueries. generalize tt at 2.
  induction calls as [|[ps b] calls IH]; intros u.
  - reflexivity.
  - cbn [for_of]. rewrite !bind_run. cbn [fst snd ret].
    rewrite analyzeOpenPositions_frame. apply IH.
Qed.

(** ** The detectors *)

(** A detector that reads the thresholds and pushes one warning on a test. *)
Lemma detector_emit (d : Detector) (test : Thresholds -> bool)
    (x : Thresholds -> Warning) (w : World) :
  (enter d ;; th <- getThresholds ;; when (test th) (push (x th))) w =
  (tt, emit d (if test (thresholds (this w)) then [x (thresholds (this w))] else []) w).
Proof.
  destruct w as [[th ws] log]. unfold emit, bind, enter, getThresholds. simpl.
  destruct (test th); simpl.
  - reflexivity.
  - rewrite app_nil_r. reflexivity.
Qed.

(** Comparing two counts as numbers is comparing them as naturals. *)
Lemma ge_of_nat (a b : nat) : (of_nat a >=? of_nat b)%num = (b <=? a).
Proof.
  unfold ge, le, of_nat, of_Z, Qle_bool, inject_Z. simpl.
  rewrite !Z.mul_1_r.
  destruct (Nat.leb_spec b a); [apply Z.leb_le|apply Z.leb_gt]; lia.
Qed.

(** C4: the loss-streak detector reads the trades in the order given; its
    [maxStreak] is the length of the longest run of consecutive trades with
    [sell_price < buy_price] (a trade sold at its buy price ends a run); it
    pushes one warning when [maxStreak >= maxLossStreak] and none otherwise,
    with [maxStreak] as value and level CRITICAL from 8 on, HIGH below.  Five
    losses in a row under the default threshold 5 give one HIGH warning of
    value 5, eight give a CRITICAL one. *)
Theorem checkLossStreak_longest_run (trades : list Trade.t) (w : World) :
  let maxStreak := snd (lossStreakLoop trades) in
  let th := thresholds (this w) in
  longestLossRun trades maxStreak /\
  (forall t, isLoss t = (Trade.sell_price t <? Trade.buy_price t)%num) /\
  (forall time price, isLoss (Trade.mk time price price) = false) /\
  (forall st t, fst (streakStep st t) = if isLoss t then S (fst st) else 0) /\
  checkLossStreak trades w =
    (tt, emit CheckLossStreak
           (if (of_nat maxStreak >=? maxLossStreak th)%num
            then [{| type := HIGH_LOSS_STREAK;
                     level := if 8 <=? maxStreak then CRITICAL else HIGH;
                     message := ConsecutiveLosses maxStreak;
                     value := of_nat maxStreak;
                     isBotLikely := None;
                     contractId := None |}]
            else [])
           w) /\
  (forall k : nat, (of_nat maxStreak >=? of_nat k)%num = (k <=? maxStreak)) /\
  warnings (this (snd (checkLossStreak fiveLosses riskEngine)))
    = [{| type := HIGH_LOSS_STREAK; level := HIGH; message := ConsecutiveLosses 5;
          value := of_nat 5; isBotLikely := None; contractId := None |}] /\
  warnings (this (snd (checkLossStreak eightLosses riskEngine)))
    = [{| type := HIGH_LOSS_STREAK; level := CRITICAL; message := ConsecutiveLosses 8;
          value := of_nat 8; isBotLikely := None; contractId := None |}].
Proof.
  intros maxStreak th.
  split; [apply lossStreakLoop_longest|].
  split; [reflexivity|].
  split; [intros time price; apply num_lt_irrefl|].
  split; [intros [cur mx] t; unfold streakStep; destruct (isLoss t); reflexivity|].
  split.
  { exact (detector_emit CheckLossStreak
             (fun th => (of_nat maxStreak >=? maxLossStreak th)%num)
             (fun _ => {| type := HIGH_LOSS_STREAK;
                          level := if 8 <=? maxStreak then CRITICAL else HIGH;
                          message := ConsecutiveLosses maxStreak;
                          value := of_nat maxStreak;
                          isBotLikely := None;
                          contractId := None |}) w). }
  split; [intros k; apply ge_of_nat|].
  split; reflexivity.
Qed.

(** C5: the martingale detector works on a copy of the trades sorted by
    ascending purchase time (a stable rearrangement of them); its count is
    the number of adjacent pairs of the sorted list whose earlier trade is a
    loss and whose later trade has [buy_price] at least the earlier
    [buy_price] times [martingaleMultiplier], whatever the later trade sold
    for; it pushes one CRITICAL warning with the count as value when the
    count is at least 3, and none otherwise.  The product is the one the
    doubles give: after a loss at 1.1 a stake of 1.98 does not count under
    the multiplier 1.8, 1.1 * 1.8 being 1.9800000000000002. *)
Theorem checkMartingalePattern_counts_pairs (trades : list Trade.t) (w : World) :
  let th := thresholds (this w) in
  let sortedTrades := sort byPurchaseTime trades in
  let count := martingaleCount th trades in
  Permutation sortedTrades trades /\
  Sorted timeLe sortedTrades /\
  (forall k, boughtAt k sortedTrades = boughtAt k trades) /\
  count = countAdjacent
            (fun prevTrade currTrade =>
               isLoss prevTrade &&
               (Trade.buy_price currTrade >=?
                Trade.buy_price prevTrade * martingaleMultiplier th)%num)
            sortedTrades /\
  (forall prevTrade time buy sell sell',
      martingaleTest th prevTrade (Trade.mk time buy sell)
      = martingaleTest th prevTrade (Trade.mk time buy sell')) /\
  checkMartingalePattern trades w =
    (tt, emit CheckMartingalePattern
           (if 3 <=? count
            then [{| type := MARTINGALE_PATTERN;
                     level := CRITICAL;
                     message := MartingaleDetected count;
                     value := of_nat count;
                     isBotLikely := None;
                     contractId := None |}]
            else [])
           w) /\
  martingaleCount defaultThresholds martingaleExample = 3 /\
  warnings (this (snd (checkMartingalePattern martingaleExample riskEngine)))
    = [{| type := MARTINGALE_PATTERN; level := CRITICAL;
          message := MartingaleDetected 3; value := of_nat 3;
          isBotLikely := None; contractId := None |}] /\
  (round (11 # 10) * round (9 # 5))%num
  = Fin (8917127262193583 # 4503599627370496) /\
  (round (99 # 50) >=? round (11 # 10) * round (9 # 5))%num = false /\
  martingaleCount defaultThresholds roundedStakes = 0 /\
  warnings (this (snd (checkMartingalePattern roundedStakes riskEngine))) = [].
Proof.
  intros th sortedTrades count.
  split; [apply sort_perm|].
  split; [apply sort_sorted|].
  split; [intros k; apply sort_stable|].
  split; [exact (martingaleCount_adjacent th trades)|].
  split; [reflexivity|].
  split.
  { exact (detector_emit CheckMartingalePattern
             (fun th => 3 <=? martingaleCount th trades)
             (fun th => {| type := MARTINGALE_PATTERN;
                           level := CRITICAL;
                           message := MartingaleDetected (martingaleCount th trades);
                           value := of_nat (martingaleCount th trades);
                           isBotLikely := None;
                           contractId := None |}) w). }
  repeat split; vm_compute; reflexivity.
Qed.

Lemma StronglySorted_app_le (l1 l2 : list Trade.t) :
  StronglySorted timeLe (l1 ++ l2) -> noLaterThan l1 l2.
Proof.
  induction l1 as [|x l1 IH]; intros Hs a b Ha Hb.
  - destruct Ha.
  - simpl in Hs. inversion Hs as [|? ? Hs' Hall]; subst.
    destruct Ha as [<-|Ha].
    + rewrite Forall_forall in Hall. apply Hall, in_or_app. right. exact Hb.
    + exact (IH Hs' a b Ha Hb).
Qed.

Lemma sorted_prefix_earliest (l : list Trade.t) (n : nat) :
  Sorted timeLe l -> noLaterThan (firstn n l) (skipn n l).
Proof.
  intros Hs. apply StronglySorted_app_le. rewrite firstn_skipn.
  apply Sorted_StronglySorted; [|exact Hs].
  intros a b c Hab Hbc. unfold timeLe in *. lia.
Qed.

(** C9: the bot-activity detector works on a copy of the trades sorted by
    ascending purchase time, looks at its first [min 20 n] trades only (no
    other trade was bought earlier), counts among them the adjacent pairs
    whose gap is at most [botTradeInterval] seconds, and pushes one MEDIUM
    warning with [isBotLikely: true] and the count as value when the count is
    at least 5, none otherwise. *)
Theorem checkBotActivity_earliest_twenty (trades : list Trade.t) (w : World) :
  let th := thresholds (this w) in
  let n := length trades in
  let sortedTrades := sort byPurchaseTime trades in
  let examined := firstn (Nat.min 20 n) sortedTrades in
  let count := suspiciousIntervals th trades in
  Permutation sortedTrades trades /\
  Sorted timeLe sortedTrades /\
  (forall k, boughtAt k sortedTrades = boughtAt k trades) /\
  length examined = Nat.min 20 n /\
  noLaterThan examined (skipn (Nat.min 20 n) sortedTrades) /\
  count = countAdjacent
            (fun prevTrade currTrade =>
               (of_Z (Trade.purchase_time currTrade - Trade.purchase_time prevTrade)
                <=? botTradeInterval th)%num)
            examined /\
  checkBotActivity trades w =
    (tt, emit CheckBotActivity
           (if 5 <=? count
            then [{| type := BOT_ACTIVITY;
                     level := MEDIUM;
                     message := PotentialBotActivity count (botTradeInterval th);
                     value := of_nat count;
                     isBotLikely := Some true;
                     contractId := None |}]
            else [])
           w) /\
  warnings (this (snd (checkBotActivity (burst 0) riskEngine)))
    = [{| type := BOT_ACTIVITY; level := MEDIUM;
          message := PotentialBotActivity 5 (of_Z 2); value := of_nat 5;
          isBotLikely := Some true; contractId := None |}] /\
  warnings (this (snd (checkBotActivity (burst 5000 ++ slowTrades) riskEngine))) = [].
Proof.
  intros th n sortedTrades examined count.
  assert (Hlen : length sortedTrades = n) by apply sort_length.
  split; [apply sort_perm|].
  split; [apply sort_sorted|].
  split; [intros k; apply sort_stable|].
  split; [subst examined; rewrite length_firstn, Hlen; lia|].
  split; [apply sorted_prefix_earliest, sort_sorted|].
  split.
  { subst count examined. rewrite suspiciousIntervals_adjacent.
    rewrite Nat.min_comm, <- Hlen, firstn_min_length. reflexivity. }
  split.
  { exact (detector_emit CheckBotActivity
             (fun th => 5 <=? suspiciousIntervals th trades)
             (fun th => {| type := BOT_ACTIVITY;
                           level := MEDIUM;
                           message := PotentialBotActivity
                                        (suspiciousIntervals th trades)
                                        (botTradeInterval th);
                           value := of_nat (suspiciousIntervals th trades);
                           isBotLikely := Some true;
                           contractId := None |}) w). }
  split; reflexivity.
Qed.

(** C3: a zero or absent [initialBalance] makes [checkBalanceDepletion]
    return before its division, with no warning; [analyzeOpenPositions] has
    no such guard: on a balance of zero a position bought at 100 gets a
    CRITICAL warning whose value is Infinity. *)
Theorem zero_balance_guarded_only_in_depletion :
  (forall currentBalance w,
      checkBalanceDepletion currentBalance None w
      = (tt, {| this := this w; invoked := invoked w ++ [CheckBalanceDepletion] |})) /\
  (forall currentBalance d w,
      checkBalanceDepletion currentBalance (Some (Fin (0 # d))) w
      = (tt, {| this := this w; invoked := invoked w ++ [CheckBalanceDepletion] |})) /\
  analyzeOpenPositions [Position.mk (of_Z 100) 1] (of_Z 0) riskEngine
    = ([{| type := LARGE_POSITION; level := CRITICAL;
           message := LargePosition PInf 1; value := PInf;
           isBotLikely := None; contractId := Some 1%Z |}],
       riskEngine) /\
  analyzeOpenPositions [Position.mk (of_Z 0) 1] (of_Z 0) riskEngine = ([], riskEngine) /\
  analyzeOpenPositions [Position.mk (of_Z 100) 1] (of_Z (-5)) riskEngine = ([], riskEngine).
Proof.
  repeat split.
Qed.

(** ** The exposure evaluator *)

Lemma analyzeOpenPositions_loop_out (balance : num) (positions : list Position.t)
    (acc : list Warning) (w : World) :
  fst (for_of positions (positionStep balance) acc w) =
  acc ++ map (largePositionWarning balance)
             (filter (fun p => (positionPercent balance p
                                >? maxPositionPercent (thresholds (this w)))%num)
                     positions).
Proof.
  revert acc. induction positions as [|p ps IH]; intros acc.
  - simpl. rewrite app_nil_r. reflexivity.
  - cbn [for_of filter]. rewrite bind_run, positionStep_frame, IH.
    unfold positionStep. cbv zeta. rewrite bind_run.
    cbn [getThresholds fst snd]. fold (positionPercent balance p).
    destruct (positionPercent balance p >? _)%num; cbn [fst ret map].
    + rewrite <- app_assoc. reflexivity.
    + reflexivity.
Qed.

Lemma gt_Fin (r m : Q) : (Fin r >? Fin m)%num = true <-> (m < r)%Q.
Proof.
  unfold gt, lt. cbn [norm]. rewrite negb_true_iff. split.
  - intros H. apply Qnot_le_lt. intros Hle.
    apply Qle_bool_iff in Hle. congruence.
  - intros H. destruct (Qle_bool r m) eqn:E; [|reflexivity].
    apply Qle_bool_iff in E. exfalso. exact (Qlt_not_le _ _ H E).
Qed.

(** C6: with a positive balance, [analyzeOpenPositions] returns, in the order
    of the positions, one warning for each position whose
    [buy_price / balance * 100], as the doubles give it, exceeds
    [maxPositionPercent] and none for the others; the warning carries the
    position's [contract_id] and the percent as value, with level CRITICAL
    above 25 and HIGH otherwise.  The list can hold a warning for every
    position.  The engine is left as it was, so a later [analyzeTradeHistory]
    returns what it would have returned.  On a balance of 1000 a position of
    150 is reported HIGH with value 15, one of 300 CRITICAL with value 30; on
    a balance of 100 and a threshold of 7 a position of 7 is reported, its
    percent being 7.000000000000001. *)
Theorem analyzeOpenPositions_per_position (positions : list Position.t) (q : Q)
    (w : World) :
  (0 < q)%Q ->
  let balance := Fin q in
  let th := thresholds (this w) in
  let percent := fun p => (Position.buy_price p / balance * of_Z 100)%num in
  let exceeds := fun p => (percent p >? maxPositionPercent th)%num in
  let out := fst (analyzeOpenPositions positions balance w) in
  out = map (fun p => {| type := LARGE_POSITION;
                         level := if (percent p >? of_Z 25)%num then CRITICAL else HIGH;
                         message := LargePosition (percent p) (Position.contract_id p);
                         value := percent p;
                         isBotLikely := None;
                         contractId := Some (Position.contract_id p) |})
            (filter exceeds positions) /\
  (forall p r m, percent p = Fin r -> maxPositionPercent th = Fin m ->
     (exceeds p = true <-> (m < r)%Q)) /\
  (forall p r, percent p = Fin r ->
     ((percent p >? of_Z 25)%num = true <-> (25 < r)%Q)) /\
  ((forall p, In p positions -> exceeds p = true) -> length out = length positions) /\
  snd (analyzeOpenPositions positions balance w) = w /\
  (forall clock trades currentBalance initialBalance,
     (analyzeOpenPositions positions balance ;;
      analyzeTradeHistory clock trades currentBalance initialBalance) w
     = analyzeTradeHistory clock trades currentBalance initialBalance w) /\
  fst (analyzeOpenPositions [Position.mk (of_Z 150) 7; Position.mk (of_Z 300) 8]
         (of_Z 1000) riskEngine)
  = [ {| type := LARGE_POSITION; level := HIGH; message := LargePosition (of_Z 15) 7;
         value := of_Z 15; isBotLikely := None; contractId := Some 7%Z |};
      {| type := LARGE_POSITION; level := CRITICAL; message := LargePosition (of_Z 30) 8;
         value := of_Z 30; isBotLikely := None; contractId := Some 8%Z |} ] /\
  fst ((setThresholds (onlyMaxPositionPercent (of_Z 7)) ;;
        analyzeOpenPositions [Position.mk (of_Z 7) 1] (of_Z 100)) riskEngine)
  = [ {| type := LARGE_POSITION; level := HIGH;
         message := LargePosition (Fin (7881299347898369 # 1125899906842624)) 1;
         value := Fin (7881299347898369 # 1125899906842624);
         isBotLikely := None; contractId := Some 1%Z |} ].
Proof.
  intros Hq balance th percent exceeds out.
  assert (Hout : out = map (largePositionWarning balance) (filter exceeds positions)).
  { subst out. unfold analyzeOpenPositions.
    rewrite analyzeOpenPositions_loop_out. reflexivity. }
  split; [exact Hout|].
  split.
  { intros p r m Hr Hm. subst exceeds. cbv beta. rewrite Hr, Hm. apply gt_Fin. }
  split.
  { intros p r Hr. rewrite Hr. unfold of_Z. apply gt_Fin. }
  split.
  { intros Hall. rewrite Hout, length_map.
    rewrite (forallb_filter_id exceeds positions); [reflexivity|].
    apply forallb_forall. exact Hall. }
  split; [apply analyzeOpenPositions_frame|].
  split.
  { intros clock trades currentBalance initialBalance.
    rewrite bind_run, analyzeOpenPositions_frame. reflexivity. }
  split; vm_compute; reflexivity.
Qed.

Lemma analyzeOpenPositions_per_position_witness :
  fst (analyzeOpenPositions examplePositions (Fin 1000) riskEngine)
  = [ {| type := LARGE_POSITION; level := HIGH; message := LargePosition (of_Z 15) 7;
         value := of_Z 15; isBotLikely := None; contractId := Some 7%Z |};
      {| type := LARGE_POSITION; level := CRITICAL; message := LargePosition (of_Z 30) 8;
         value := of_Z 30; isBotLikely := None; contractId := Some 8%Z |} ].
Proof.
  assert (Hq : (0 < 1000)%Q) by reflexivity.
  exact (proj1 (analyzeOpenPositions_per_position examplePositions riskEngine Hq)).
Defined.

(** * Further properties of the engine *)

(** ** What a detector call does *)

Lemma when_push_run (c : bool) (x : Warning) (w : World) :
  when c (push x) w = (tt, pushAll (if c then [x] else []) w).
Proof.
  destruct w as [[th ws] log]. destruct c; unfold pushAll; simpl.
  - reflexivity.
  - rewrite app_nil_r. reflexivity.
Qed.

Ltac one_warning :=
  match goal with
  | |- atMostOne _ (if ?c then _ else _) =>
      destruct c; [right; eexists; repeat split|left; reflexivity]
  end.

Ltac detector_appends :=
  intros w; rewrite !bind_run; cbn [getThresholds fst snd];
  rewrite when_push_run; eexists; split; [reflexivity|one_warning].

Lemma checkOvertrading_appends clock trades :
  appendsAtMostOne CheckOvertrading (checkOvertrading clock trades).
Proof. unfold checkOvertrading. detector_appends. Qed.

Lemma checkLossStreak_appends trades :
  appendsAtMostOne CheckLossStreak (checkLossStreak trades).
Proof.
  unfold checkLossStreak. detector_appends.
  unfold historyShape. simpl.
  match goal with |- context [if ?c then _ else _] => destruct c end; reflexivity.
Qed.

Lemma checkRapidTrading_appends trades :
  appendsAtMostOne CheckRapidTrading (checkRapidTrading trades).
Proof. unfold checkRapidTrading. detector_appends. Qed.

Lemma checkMartingalePattern_appends trades :
  appendsAtMostOne CheckMartingalePattern (checkMartingalePattern trades).
Proof. unfold checkMartingalePattern. detector_appends. Qed.

Lemma checkBalanceDepletion_appends currentBalance initialBalance :
  appendsAtMostOne CheckBalanceDepletion
    (checkBalanceDepletion currentBalance initialBalance).
Proof.
  unfold checkBalanceDepletion. intros w. rewrite bind_run.
  destruct (_ || _).
  - exists []. split; [|left; reflexivity].
    destruct w as [[th ws] log]. unfold emit. simpl. rewrite app_nil_r. reflexivity.
  - rewrite bind_run. cbn [getThresholds fst snd]. rewrite when_push_run.
    eexists. split; [reflexivity|]. one_warning.
    unfold historyShape. simpl.
    match goal with |- context [if ?c then _ else _] => destruct c end; reflexivity.
Qed.

Lemma checkBotActivity_appends trades :
  appendsAtMostOne CheckBotActivity (checkBotActivity trades).
Proof. unfold checkBotActivity. detector_appends. Qed.

Lemma checkUnusualHours_appends clock trades :
  appendsAtMostOne CheckUnusualHours (checkUnusualHours clock trades).
Proof. unfold checkUnusualHours. detector_appends. Qed.

(** The warning list after the seven detectors: one block per detector, in
    the order of the calls, each empty or a single warning. *)
Lemma afterDetectors_shape (clock : Clock) (trades : list Trade.t)
    (currentBalance initialBalance : option num) (w : World) :
  exists ws1 ws2 ws3 ws4 ws5 ws6 ws7,
    warnings (this (afterDetectors clock trades currentBalance initialBalance w))
    = ws1 ++ ws2 ++ ws3 ++ ws4 ++ ws5 ++ ws6 ++ ws7 /\
    atMostOne OVERTRADING ws1 /\ atMostOne HIGH_LOSS_STREAK ws2 /\
    atMostOne RAPID_TRADING ws3 /\ atMostOne MARTINGALE_PATTERN ws4 /\
    atMostOne BALANCE_DEPLETION ws5 /\ atMostOne BOT_ACTIVITY ws6 /\
    atMostOne UNUSUAL_HOURS ws7.
Proof.
  unfold afterDetectors, detectors. rewrite !bind_run.
  set (w0 := snd (setWarnings [] w)).
  destruct (checkOvertrading_appends clock trades w0) as [ws1 [E1 H1]].
  rewrite E1. cbn [snd].
  destruct (checkLossStreak_appends trades (emit CheckOvertrading ws1 w0))
    as [ws2 [E2 H2]].
  rewrite E2. cbn [snd].
  destruct (checkRapidTrading_appends trades
              (emit CheckLossStreak ws2 (emit CheckOvertrading ws1 w0)))
    as [ws3 [E3 H3]].
  rewrite E3. cbn [snd].
  match goal with |- context [checkMartingalePattern trades ?W] =>
    destruct (checkMartingalePattern_appends trades W) as [ws4 [E4 H4]] end.
  rewrite E4. cbn [snd].
  match goal with |- context [checkBalanceDepletion ?a ?b ?W] =>
    destruct (checkBalanceDepletion_appends a b W) as [ws5 [E5 H5]] end.
  rewrite E5. cbn [snd].
  match goal with |- context [checkBotActivity trades ?W] =>
    destruct (checkBotActivity_appends trades W) as [ws6 [E6 H6]] end.
  rewrite E6. cbn [snd].
  match goal with |- context [checkUnusualHours clock trades ?W] =>
    destruct (checkUnusualHours_appends clock trades W) as [ws7 [E7 H7]] end.
  rewrite E7. cbn [snd].
  exists ws1, ws2, ws3, ws4, ws5, ws6, ws7.
  split; [|repeat split; assumption].
  unfold emit, w0. simpl. rewrite <- !app_assoc. reflexivity.
Qed.

Lemma RiskType_eqb_eq (a b : RiskType) : RiskType_eqb a b = true <-> a = b.
Proof. destruct a, b; simpl; split; intros H; try reflexivity; discriminate. Qed.

Lemma subsequence_In (l order : list RiskType) :
  subsequence l order = true -> forall a, In a l -> In a order.
Proof.
  revert l. induction order as [|b order IH]; intros [|a l] H x Hx;
    try destruct Hx; try discriminate.
  - subst. simpl in H. destruct (RiskType_eqb x b) eqn:E.
    + apply RiskType_eqb_eq in E. left. symmetry. exact E.
    + right. apply (IH (x :: l) H). left. reflexivity.
  - simpl in H. destruct (RiskType_eqb a b) eqn:E.
    + right. exact (IH l H x H0).
    + right. apply (IH (a :: l) H). right. exact H0.
Qed.

Lemma subsequence_length (l order : list RiskType) :
  subsequence l order = true -> length l <= length order.
Proof.
  revert l. induction order as [|b order IH]; intros [|a l] H; simpl in *;
    try discriminate; try lia.
  destruct (RiskType_eqb a b).
  - specialize (IH l H). lia.
  - specialize (IH (a :: l) H). simpl in IH. lia.
Qed.

Lemma subsequence_NoDup (l order : list RiskType) :
  subsequence l order = true -> NoDup order -> NoDup l.
Proof.
  revert l. induction order as [|b order IH]; intros [|a l] H Hnd;
    try constructor; try discriminate.
  - simpl in H. inversion Hnd as [|? ? Hb Hnd']; subst.
    destruct (RiskType_eqb a b) eqn:E.
    + apply RiskType_eqb_eq in E. subst. intros Hin.
      apply Hb. exact (@subsequence_In l order H b Hin).
    + specialize (IH (a :: l) H Hnd'). inversion IH. assumption.
  - simpl in H. inversion Hnd as [|? ? Hb Hnd']; subst.
    destruct (RiskType_eqb a b) eqn:E.
    + exact (IH l H Hnd').
    + specialize (IH (a :: l) H Hnd'). inversion IH. assumption.
Qed.

Lemma reportOrder_NoDup : NoDup reportOrder.
Proof.
  unfold reportOrder. repeat constructor; simpl; intuition discriminate.
Qed.

Ltac split_block H :=
  destruct H as [->|[? [-> [? ?]]]].

(** The types of the warnings after the detectors follow the order of the
    calls, and every warning has the shape of its type. *)
Lemma afterDetectors_types (clock : Clock) (trades : list Trade.t)
    (currentBalance initialBalance : option num) (w : World) :
  let ws := warnings (this (afterDetectors clock trades currentBalance initialBalance w)) in
  subsequence (map type ws) reportOrder = true /\ forallb historyShape ws = true.
Proof.
  destruct (afterDetectors_shape clock trades currentBalance initialBalance w)
    as (ws1 & ws2 & ws3 & ws4 & ws5 & ws6 & ws7 & E & H1 & H2 & H3 & H4 & H5 & H6 & H7).
  cbv zeta. rewrite E. clear E.
  split_block H1; split_block H2; split_block H3; split_block H4;
    split_block H5; split_block H6; split_block H7;
    cbn [app map forallb];
    repeat match goal with
           | E : type _ = _ |- _ => rewrite E; clear E
           | E : historyShape _ = true |- _ => rewrite E; clear E
           end;
    split; reflexivity.
Qed.

(** ** The result of [analyzeTradeHistory], for every input *)

(** The two ways a call can end. *)
Lemma analysis_outcome (clock : Clock) (trades : option (list Trade.t))
    (currentBalance initialBalance : option num) (w : World) :
  let run := analyzeTradeHistory clock trades currentBalance initialBalance w in
  ((trades = None \/ trades = Some []) /\
   fst run = AnalysisResult.mk [] 0 None /\
   warnings (this (snd run)) = []) \/
  (exists ts, trades = Some ts /\ ts <> [] /\
     let ws := warnings (this (afterDetectors clock ts currentBalance initialBalance w)) in
     fst run = AnalysisResult.mk ws (Z.min (sumPoints ws) 100)
                 (Some (getRiskLevel (Z.min (sumPoints ws) 100))) /\
     snd run = afterDetectors clock ts currentBalance initialBalance w).
Proof.
  destruct trades as [[|t ts]|].
  - left. repeat split. right. reflexivity.
  - right. exists (t :: ts). assert (Hne : t :: ts <> []) by discriminate.
    repeat split; [exact Hne| |];
      rewrite (analyzeTradeHistory_run clock currentBalance initialBalance w Hne);
      cbv zeta; rewrite addPoints_sum, Z.add_0_l; reflexivity.
  - left. repeat split. left. reflexivity.
Qed.

(** X1: whatever the input, the warnings of a result are at most seven, of
    pairwise different types, listed in the order of the detector calls,
    each with the level its type allows and without [contractId]; no
    LARGE_POSITION warning is among them. *)
Theorem history_result_shape (clock : Clock) (trades : option (list Trade.t))
    (currentBalance initialBalance : option num) (w : World) :
  let ws := AnalysisResult.warnings
              (fst (analyzeTradeHistory clock trades currentBalance initialBalance w)) in
  length ws <= 7 /\
  NoDup (map type ws) /\
  subsequence (map type ws) reportOrder = true /\
  forallb historyShape ws = true /\
  ~ In LARGE_POSITION (map type ws).
Proof.
  cbv zeta.
  assert (Hsub : subsequence
                   (map type (AnalysisResult.warnings
                      (fst (analyzeTradeHistory clock trades currentBalance
                              initialBalance w)))) reportOrder = true /\
                 forallb historyShape
                   (AnalysisResult.warnings
                      (fst (analyzeTradeHistory clock trades currentBalance
                              initialBalance w))) = true).
  { destruct (analysis_outcome clock trades currentBalance initialBalance w)
      as [[_ [E _]]|[ts [_ [_ [E _]]]]]; rewrite E; cbn [AnalysisResult.warnings].
    - split; reflexivity.
    - apply afterDetectors_types. }
  destruct Hsub as [Hsub Hshape].
  split; [|split; [|split; [exact Hsub|split; [exact Hshape|]]]].
  - rewrite <- (length_map type). apply (@subsequence_length _ _ Hsub).
  - exact (@subsequence_NoDup _ _ Hsub reportOrder_NoDup).
  - intros Hin. apply (@subsequence_In _ _ Hsub) in Hin.
    unfold reportOrder in Hin. simpl in Hin. intuition discriminate.
Qed.

Lemma sumPoints_zero (ws : list Warning) : sumPoints ws = 0%Z <-> ws = [].
Proof.
  split; [|intros ->; reflexivity].
  destruct ws as [|x ws]; [reflexivity|].
  pose proof (sumPoints_nonneg ws) as H. unfold sumPoints in *.
  cbn [map fold_right]. destruct (level x); cbn [points]; lia.
Qed.

Lemma sumPoints_mod5 (ws : list Warning) : exists k, sumPoints ws = (5 * k)%Z.
Proof.
  induction ws as [|x ws [k IH]]; unfold sumPoints in *; cbn [map fold_right].
  - exists 0%Z. reflexivity.
  - rewrite IH. destruct (level x); cbn [points];
      [exists (k + 1)%Z|exists (k + 3)%Z|exists (k + 6)%Z|exists (k + 10)%Z]; lia.
Qed.

Lemma sumPoints_In (ws : list Warning) (x : Warning) :
  In x ws -> (points (level x) <= sumPoints ws)%Z.
Proof.
  induction ws as [|y ws IH]; [intros []|].
  intros [->|Hin]; unfold sumPoints in *; cbn [map fold_right].
  - pose proof (sumPoints_nonneg ws) as H. unfold sumPoints in H. lia.
  - specialize (IH Hin).
    assert (0 <= points (level y))%Z by (destruct (level y); cbn [points]; lia).
    lia.
Qed.

(** X2: for every input the riskScore is the capped sum of the points of the
    returned warnings; it is a multiple of 5; it is 0 exactly when there are
    no warnings; each warning alone contributes its points: a result holding
    a CRITICAL warning scores at least 50, so its level, when present, is
    HIGH or CRITICAL. *)
Theorem riskScore_facts (clock : Clock) (trades : option (list Trade.t))
    (currentBalance initialBalance : option num) (w : World) :
  let result :=
    fst (analyzeTradeHistory clock trades currentBalance initialBalance w) in
  let ws := AnalysisResult.warnings result in
  let score := AnalysisResult.riskScore result in
  score = Z.min (sumPoints ws) 100 /\
  (exists k, score = (5 * k)%Z) /\
  (score = 0%Z <-> ws = []) /\
  (forall x, In x ws -> (Z.min (points (level x)) 100 <= score)%Z) /\
  (forall x, In x ws -> level x = CRITICAL ->
     (50 <= score)%Z /\
     (AnalysisResult.riskLevel result = Some HIGH \/
      AnalysisResult.riskLevel result = Some CRITICAL)).
Proof.
  cbv zeta.
  destruct (analysis_outcome clock trades currentBalance initialBalance w)
    as [[_ [E _]]|[ts [_ [_ [E _]]]]]; cbv zeta in E; rewrite E;
    cbn [AnalysisResult.warnings AnalysisResult.riskScore AnalysisResult.riskLevel].
  - split; [reflexivity|]. split; [exists 0%Z; reflexivity|].
    split; [split; reflexivity|]. split; intros x [].
  - set (ws := warnings (this (afterDetectors clock ts currentBalance initialBalance w))).
    pose proof (sumPoints_nonneg ws) as Hpos.
    split; [reflexivity|]. split.
    { destruct (sumPoints_mod5 ws) as [k Hk].
      destruct (Z.le_gt_cases (sumPoints ws) 100).
      - exists k. lia.
      - exists 20%Z. lia. }
    split.
    { rewrite <- sumPoints_zero. lia. }
    split.
    { intros x Hin. pose proof (@sumPoints_In ws x Hin). lia. }
    intros x Hin Hc. pose proof (@sumPoints_In ws x Hin) as Hx.
    rewrite Hc in Hx. cbn [points] in Hx.
    split; [lia|].
    destruct (getRiskLevel_steps (Z.min (sumPoints ws) 100)) as [_ [_ [Hh Hcr]]].
    destruct (Z.le_gt_cases 70 (Z.min (sumPoints ws) 100)).
    + right. f_equal. apply Hcr. assumption.
    + left. f_equal. apply Hh. lia.
Qed.

(** X3: after every call the engine holds exactly the returned warnings and
    the thresholds it had; asking it for the score again gives the returned
    riskScore and changes nothing; and the result has no riskLevel exactly
    when the trades were absent or empty. *)
Theorem analysis_leaves_result_in_engine (clock : Clock)
    (trades : option (list Trade.t)) (currentBalance initialBalance : option num)
    (w : World) :
  let run := analyzeTradeHistory clock trades currentBalance initialBalance w in
  warnings (this (snd run)) = AnalysisResult.warnings (fst run) /\
  thresholds (this (snd run)) = thresholds (this w) /\
  calculateOverallRiskScore (snd run) = (AnalysisResult.riskScore (fst run), snd run) /\
  (AnalysisResult.riskLevel (fst run) = None <-> trades = None \/ trades = Some []).
Proof.
  cbv zeta. split; [|split; [apply keeps_analysis|]].
  - destruct (analysis_outcome clock trades currentBalance initialBalance w)
      as [[_ [E Hw]]|[ts [_ [_ [E Hs]]]]]; cbv zeta in E; rewrite E.
    + exact Hw.
    + rewrite Hs. reflexivity.
  - destruct (analysis_outcome clock trades currentBalance initialBalance w)
      as [[Ht [E Hw]]|[ts [Ht [Hne [E Hs]]]]]; cbv zeta in E; rewrite E;
      cbn [AnalysisResult.riskScore AnalysisResult.riskLevel].
    + split; [|split; [intros _; exact Ht|reflexivity]].
      unfold calculateOverallRiskScore. rewrite bind_run.
      cbn [getWarnings fst snd]. rewrite Hw. reflexivity.
    + split.
      * unfold calculateOverallRiskScore. rewrite bind_run.
        cbn [getWarnings fst snd]. rewrite Hs, addPoints_sum, Z.add_0_l. reflexivity.
      * split; [discriminate|]. intros [H|H]; rewrite Ht in H; try discriminate.
        injection H as ->. contradiction.
Qed.

(** ** The detectors as functions of the thresholds *)

Ltac detector_block :=
  intros; rewrite !bind_run; cbn [getThresholds fst snd];
  rewrite when_push_run; reflexivity.

Lemma checkOvertrading_block clock trades w :
  checkOvertrading clock trades w
  = (tt, emit CheckOvertrading (overtradingBlock clock trades (thresholds (this w))) w).
Proof. unfold checkOvertrading. detector_block. Qed.

Lemma checkLossStreak_block trades w :
  checkLossStreak trades w
  = (tt, emit CheckLossStreak (lossStreakBlock trades (thresholds (this w))) w).
Proof. unfold checkLossStreak. detector_block. Qed.

Lemma checkRapidTrading_block trades w :
  checkRapidTrading trades w
  = (tt, emit CheckRapidTrading (rapidTradingBlock trades (thresholds (this w))) w).
Proof. unfold checkRapidTrading. detector_block. Qed.

Lemma checkMartingalePattern_block trades w :
  checkMartingalePattern trades w
  = (tt, emit CheckMartingalePattern (martingaleBlock trades (thresholds (this w))) w).
Proof. unfold checkMartingalePattern. detector_block. Qed.

Lemma checkBalanceDepletion_block currentBalance initialBalance w :
  checkBalanceDepletion currentBalance initialBalance w
  = (tt, emit CheckBalanceDepletion
           (balanceDepletionBlock currentBalance initialBalance (thresholds (this w))) w).
Proof.
  unfold checkBalanceDepletion, balanceDepletionBlock. rewrite bind_run.
  destruct (_ || _).
  - destruct w as [[th ws] log]. unfold emit. simpl. rewrite app_nil_r. reflexivity.
  - rewrite bind_run. cbn [getThresholds fst snd]. rewrite when_push_run. reflexivity.
Qed.

Lemma checkBotActivity_block trades w :
  checkBotActivity trades w
  = (tt, emit CheckBotActivity (botActivityBlock trades (thresholds (this w))) w).
Proof. unfold checkBotActivity. detector_block. Qed.

Lemma checkUnusualHours_block clock trades w :
  checkUnusualHours clock trades w
  = (tt, emit CheckUnusualHours (unusualHoursBlock clock trades) w).
Proof. unfold checkUnusualHours. detector_block. Qed.

Lemma afterDetectors_blocks (clock : Clock) (trades : list Trade.t)
    (currentBalance initialBalance : option num) (w : World) :
  afterDetectors clock trades currentBalance initialBalance w
  = {| this := {| thresholds := thresholds (this w);
                  warnings := historyWarnings clock trades currentBalance
                                initialBalance (thresholds (this w)) |};
       invoked := invoked w ++ allDetectors |}.
Proof.
  unfold afterDetectors, detectors. rewrite !bind_run.
  rewrite checkOvertrading_block. cbn [snd].
  rewrite checkLossStreak_block. cbn [snd].
  rewrite checkRapidTrading_block. cbn [snd].
  rewrite checkMartingalePattern_block. cbn [snd].
  rewrite checkBalanceDepletion_block. cbn [snd].
  rewrite checkBotActivity_block. cbn [snd].
  rewrite checkUnusualHours_block. cbn [snd].
  unfold emit, historyWarnings, allDetectors.
  cbn [this thresholds warnings invoked setWarnings snd].
  rewrite <- !app_assoc. reflexivity.
Qed.

(** X4: the shared warning list is only a carrier: for every input and every
    engine, the result of [analyzeTradeHistory] is the function [analysisOf]
    of the arguments and the thresholds (the seven blocks, concatenated in
    the order of the calls, scored and levelled), and the engine afterwards
    holds these warnings and the same thresholds. *)
Theorem analysis_is_function_of_thresholds (clock : Clock)
    (trades : option (list Trade.t)) (currentBalance initialBalance : option num)
    (w : World) :
  let run := analyzeTradeHistory clock trades currentBalance initialBalance w in
  let result :=
    analysisOf clock trades currentBalance initialBalance (thresholds (this w)) in
  fst run = result /\
  this (snd run) = {| thresholds := thresholds (this w);
                      warnings := AnalysisResult.warnings result |}.
Proof.
  cbv zeta. destruct trades as [[|t ts]|].
  - split; reflexivity.
  - assert (Hne : t :: ts <> []) by discriminate.
    rewrite (analyzeTradeHistory_run clock currentBalance initialBalance w Hne).
    cbv zeta. cbn [fst snd]. rewrite afterDetectors_blocks.
    cbn [this warnings thresholds analysisOf AnalysisResult.warnings].
    rewrite addPoints_sum, Z.add_0_l. split; reflexivity.
  - split; reflexivity.
Qed.

Lemma analysis_result_of (clock : Clock) (trades : option (list Trade.t))
    (currentBalance initialBalance : option num) (w : World) :
  fst (analyzeTradeHistory clock trades currentBalance initialBalance w)
  = analysisOf clock trades currentBalance initialBalance (thresholds (this w)).
Proof.
  destruct trades as [[|t ts]|]; try reflexivity.
  assert (Hne : t :: ts <> []) by discriminate.
  rewrite (analyzeTradeHistory_run clock currentBalance initialBalance w Hne).
  cbv zeta. cbn [fst]. rewrite afterDetectors_blocks.
  cbn [this warnings analysisOf]. rewrite addPoints_sum, Z.add_0_l. reflexivity.
Qed.

(** X5: [maxPositionPercent] is no input of the trade-history analysis:
    overriding it, to any value, before the call leaves the result as it
    would have been. *)
Theorem analysis_ignores_maxPositionPercent (v : num) (clock : Clock)
    (trades : option (list Trade.t)) (currentBalance initialBalance : option num)
    (w : World) :
  fst ((setThresholds (onlyMaxPositionPercent v) ;;
        analyzeTradeHistory clock trades currentBalance initialBalance) w)
  = fst (analyzeTradeHistory clock trades currentBalance initialBalance w).
Proof.
  rewrite bind_run, !analysis_result_of. reflexivity.
Qed.

(** ** [setThresholds] *)

Lemma override_orElse (a : num) (x y : option num) :
  override (override a x) y = override a (orElse y x).
Proof. destruct x, y; reflexivity. Qed.

Lemma override_twice (a : num) (x : option num) :
  override (override a x) x = override a x.
Proof. destruct x; reflexivity. Qed.

Lemma spread_merge (th : Thresholds) (p q : PartialThresholds) :
  spread (spread th p) q = spread th (mergePartial p q).
Proof.
  unfold spread, mergePartial. cbn [maxDailyTrades maxLossStreak maxPositionPercent
    minTimeBetweenTrades martingaleMultiplier balanceDropPercent botTradeInterval
    maxDailyTrades' maxLossStreak' maxPositionPercent' minTimeBetweenTrades'
    martingaleMultiplier' balanceDropPercent' botTradeInterval'].
  rewrite !override_orElse. reflexivity.
Qed.

Lemma spread_twice (th : Thresholds) (p : PartialThresholds) :
  spread (spread th p) p = spread th p.
Proof.
  unfold spread. cbn [maxDailyTrades maxLossStreak maxPositionPercent
    minTimeBetweenTrades martingaleMultiplier balanceDropPercent botTradeInterval].
  rewrite !override_twice. reflexivity.
Qed.

(** X6: two [setThresholds] calls in a row amount to one call with the two
    objects merged, the later keys winning; repeating a call changes nothing
    more; an empty object, or an object holding the current values, leaves the
    engine as it is; an object with all seven keys replaces the whole
    configuration.  No call touches the warning list. *)
Theorem setThresholds_composes (p q : PartialThresholds) (th0 : Thresholds)
    (w : World) :
  (setThresholds p ;; setThresholds q) w = setThresholds (mergePartial p q) w /\
  (setThresholds p ;; setThresholds p) w = setThresholds p w /\
  setThresholds noOverrides w = (tt, w) /\
  setThresholds (allKeys (thresholds (this w))) w = (tt, w) /\
  thresholds (this (snd (setThresholds (allKeys th0) w))) = th0 /\
  warnings (this (snd (setThresholds p w))) = warnings (this w).
Proof.
  repeat split.
  - rewrite bind_run. unfold setThresholds. cbn [fst snd this thresholds warnings invoked].
    rewrite spread_merge. reflexivity.
  - rewrite bind_run. unfold setThresholds. cbn [fst snd this thresholds warnings invoked].
    rewrite spread_twice. reflexivity.
  - destruct w as [[[] ws] log]. reflexivity.
  - destruct w as [[[] ws] log]. reflexivity.
  - destruct th0. reflexivity.
Qed.

(** ** More on the exposure evaluator *)

Lemma analyzeOpenPositions_out (positions : list Position.t) (balance : num)
    (w : World) :
  fst (analyzeOpenPositions positions balance w)
  = map (largePositionWarning balance)
        (filter (fun p => (positionPercent balance p
                           >? maxPositionPercent (thresholds (this w)))%num)
                positions).
Proof. unfold analyzeOpenPositions. rewrite analyzeOpenPositions_loop_out. reflexivity. Qed.

(** X7: the exposure check treats the positions one by one: the warnings
    for two lists put together are the warnings for the first followed by
    those for the second, and no positions give no warnings.  There are never
    more warnings than positions; each is a LARGE_POSITION warning of level
    HIGH or CRITICAL that names a contract of the list.  A balance that is
    not a number gives no warning at all. *)
Theorem analyzeOpenPositions_is_positionwise (ps1 ps2 : list Position.t)
    (balance : num) (w : World) :
  let out := fun ps => fst (analyzeOpenPositions ps balance w) in
  out (ps1 ++ ps2) = out ps1 ++ out ps2 /\
  out [] = [] /\
  length (out ps1) <= length ps1 /\
  Forall (fun x => type x = LARGE_POSITION /\
                   (level x = HIGH \/ level x = CRITICAL) /\
                   isBotLikely x = None /\
                   exists p, In p ps1 /\ contractId x = Some (Position.contract_id p))
         (out ps1) /\
  fst (analyzeOpenPositions ps1 NaN w) = [].
Proof.
  cbv zeta. rewrite !analyzeOpenPositions_out.
  split; [rewrite filter_app, map_app; reflexivity|].
  split; [reflexivity|].
  split; [rewrite length_map; apply filter_length_le|].
  split.
  - apply Forall_forall. intros x Hx. apply in_map_iff in Hx as [p [<- Hp]].
    apply filter_In in Hp as [Hp _].
    split; [reflexivity|]. split.
    + unfold largePositionWarning. cbn [level].
      destruct (_ >? _)%num; [right|left]; reflexivity.
    + split; [reflexivity|]. exists p. split; [exact Hp|reflexivity].
  - induction ps1 as [|p ps IH]; [reflexivity|].
    cbn [filter]. unfold positionPercent at 1.
    replace (Position.buy_price p / NaN * of_Z 100 >?
             maxPositionPercent (thresholds (this w)))%num with false.
    + exact IH.
    + destruct (Position.buy_price p); destruct (maxPositionPercent _); reflexivity.
Qed.

(** X8: the exposure check reads [maxPositionPercent] and no other
    threshold: an override that lacks this key, made before the call, leaves
    the warnings as they would have been. *)
Theorem analyzeOpenPositions_reads_one_threshold (p : PartialThresholds)
    (positions : list Position.t) (balance : num) (w : World) :
  maxPositionPercent' p = None ->
  fst ((setThresholds p ;; analyzeOpenPositions positions balance) w)
  = fst (analyzeOpenPositions positions balance w).
Proof.
  intros Hp. rewrite bind_run, !analyzeOpenPositions_out.
  unfold setThresholds, spread.
  cbn [snd this thresholds maxPositionPercent]. rewrite Hp. reflexivity.
Qed.

Lemma analyzeOpenPositions_reads_one_threshold_witness :
  fst ((setThresholds (onlyMaxDailyTrades (of_Z 1)) ;;
        analyzeOpenPositions examplePositions (of_Z 1000)) riskEngine)
  = fst (analyzeOpenPositions examplePositions (of_Z 1000) riskEngine).
Proof.
  apply (analyzeOpenPositions_reads_one_threshold
           (onlyMaxDailyTrades (of_Z 1)) examplePositions (of_Z 1000) riskEngine).
  reflexivity.
Defined.

(** ** The score again *)

Lemma sumPoints_perm (ws ws' : list Warning) :
  Permutation ws ws' -> sumPoints ws = sumPoints ws'.
Proof.
  induction 1 as [|x l l' _ IH|x y l|l l' l'' _ IH1 _ IH2];
    unfold sumPoints in *; cbn [map fold_right]; lia.
Qed.

(** X9: [calculateOverallRiskScore] does not depend on the order of the
    warnings the engine holds, and it leaves the engine as it is. *)
Theorem score_ignores_warning_order (w w' : World) :
  Permutation (warnings (this w)) (warnings (this w')) ->
  fst (calculateOverallRiskScore w) = fst (calculateOverallRiskScore w') /\
  snd (calculateOverallRiskScore w) = w.
Proof.
  intros Hperm. unfold calculateOverallRiskScore. rewrite !bind_run.
  cbn [getWarnings fst snd ret]. rewrite !addPoints_sum.
  rewrite (sumPoints_perm Hperm). split; reflexivity.
Qed.

Lemma score_ignores_warning_order_witness :
  fst (calculateOverallRiskScore (engineHolding [streakWarning; hoursWarning]))
  = fst (calculateOverallRiskScore (engineHolding [hoursWarning; streakWarning])).
Proof.
  apply (@score_ignores_warning_order
           (engineHolding [streakWarning; hoursWarning])
           (engineHolding [hoursWarning; streakWarning])).
  apply perm_swap.
Defined.

(** ** Detectors that do not depend on the order of the trades *)

Lemma adjacentPairs_map {A B} (g : A -> B) (l : list A) :
  adjacentPairs (map g l)
  = map (fun pc => (g (fst pc), g (snd pc))) (adjacentPairs l).
Proof.
  induction l as [|x l IH]; [reflexivity|].
  destruct l as [|y l]; [reflexivity|].
  change (adjacentPairs (map g (x :: y :: l)))
    with ((g x, g y) :: adjacentPairs (map g (y :: l))).
  rewrite IH. reflexivity.
Qed.

Lemma countAdjacent_map {A B} (g : A -> B) (f : B -> B -> bool) (l : list A) :
  countAdjacent (fun a b => f (g a) (g b)) l = countAdjacent f (map g l).
Proof.
  unfold countAdjacent. rewrite adjacentPairs_map.
  induction (adjacentPairs l) as [|pc ps IH]; [reflexivity|].
  cbn [map filter fst snd]. destruct (f (g (fst pc)) (g (snd pc))); cbn [length];
    rewrite IH; reflexivity.
Qed.

Lemma sorted_Z_unique (l1 l2 : list Z) :
  Sorted Z.le l1 -> Sorted Z.le l2 -> Permutation l1 l2 -> l1 = l2.
Proof.
  intros H1 H2. apply Sorted_StronglySorted in H1; [|exact Z.le_trans].
  apply Sorted_StronglySorted in H2; [|exact Z.le_trans].
  revert l2 H2. induction H1 as [|x l1 Hs IH Hx]; intros l2 H2 Hp.
  - apply Permutation_nil in Hp. symmetry. exact Hp.
  - destruct H2 as [|y l2 Hs2 Hy].
    + apply Permutation_sym, Permutation_nil in Hp. discriminate.
    + assert (Hxy : x = y).
      { rewrite Forall_forall in Hx, Hy.
        assert (Hin1 : In y (x :: l1))
          by (apply (Permutation_in y (Permutation_sym Hp)); left; reflexivity).
        assert (Hin2 : In x (y :: l2))
          by (apply (Permutation_in x Hp); left; reflexivity).
        destruct Hin1 as [E|Hin1]; [exact E|].
        destruct Hin2 as [E|Hin2]; [symmetry; exact E|].
        specialize (Hx y Hin1). specialize (Hy x Hin2). lia. }
      subst y. f_equal. apply IH; [exact Hs2|].
      exact (Permutation_cons_inv Hp).
Qed.

Lemma sorted_times (l : list Trade.t) :
  Sorted timeLe l -> Sorted Z.le (map Trade.purchase_time l).
Proof.
  induction 1 as [|x l Hs IH Hhd]; cbn [map]; constructor; [exact IH|].
  destruct Hhd; cbn [map]; constructor. assumption.
Qed.

(** The purchase times of the sorted copy depend on the trades only up to
    their order. *)
Lemma times_of_sort (trades trades' : list Trade.t) :
  Permutation trades trades' ->
  map Trade.purchase_time (sort byPurchaseTime trades)
  = map Trade.purchase_time (sort byPurchaseTime trades').
Proof.
  intros Hp. apply sorted_Z_unique; try apply sorted_times, sort_sorted.
  apply Permutation_map.
  eapply perm_trans; [apply sort_perm|].
  eapply perm_trans; [exact Hp|]. apply Permutation_sym, sort_perm.
Qed.

Lemma rapidCount_times (th : Thresholds) (trades : list Trade.t) :
  rapidCount th trades
  = countAdjacent (fun a b => (of_Z (b - a) <? minTimeBetweenTrades th)%num)
      (map Trade.purchase_time (sort byPurchaseTime trades)).
Proof.
  unfold rapidCount. cbv zeta. rewrite countStep_loop by lia. rewrite firstn_all.
  exact (countAdjacent_map Trade.purchase_time
           (fun a b => (of_Z (b - a) <? minTimeBetweenTrades th)%num)
           (sort byPurchaseTime trades)).
Qed.

Lemma suspiciousIntervals_times (th : Thresholds) (trades : list Trade.t) :
  suspiciousIntervals th trades
  = countAdjacent (fun a b => (of_Z (b - a) <=? botTradeInterval th)%num)
      (firstn 20 (map Trade.purchase_time (sort byPurchaseTime trades))).
Proof.
  rewrite suspiciousIntervals_adjacent, firstn_map.
  exact (countAdjacent_map Trade.purchase_time
           (fun a b => (of_Z (b - a) <=? botTradeInterval th)%num)
           (firstn 20 (sort byPurchaseTime trades))).
Qed.

Lemma filter_length_perm {A} (f : A -> bool) (l l' : list A) :
  Permutation l l' -> length (filter f l) = length (filter f l').
Proof.
  induction 1 as [|x l l' _ IH|x y l|l l' l'' _ IH1 _ IH2]; cbn [filter].
  - reflexivity.
  - destruct (f x); cbn [length]; rewrite IH; reflexivity.
  - destruct (f x), (f y); reflexivity.
  - rewrite IH1. exact IH2.
Qed.

(** X10: four detectors see the trades as a bag: given the same trades in
    another order, [checkOvertrading], [checkRapidTrading], [checkBotActivity]
    and [checkUnusualHours] do exactly the same.  [checkLossStreak] does not:
    the same six trades make it warn in one order and stay silent in
    another. *)
Theorem four_detectors_ignore_trade_order (clock : Clock)
    (trades trades' : list Trade.t) (w : World) :
  Permutation trades trades' ->
  checkOvertrading clock trades w = checkOvertrading clock trades' w /\
  checkRapidTrading trades w = checkRapidTrading trades' w /\
  checkBotActivity trades w = checkBotActivity trades' w /\
  checkUnusualHours clock trades w = checkUnusualHours clock trades' w /\
  Permutation brokenStreak unbrokenStreak /\
  warnings (this (snd (checkLossStreak brokenStreak riskEngine))) = [] /\
  length (warnings (this (snd (checkLossStreak unbrokenStreak riskEngine)))) = 1.
Proof.
  intros Hp.
  split.
  { rewrite !checkOvertrading_block. unfold overtradingBlock, todayTrades.
    rewrite (filter_length_perm _ Hp). reflexivity. }
  split.
  { rewrite !checkRapidTrading_block. unfold rapidTradingBlock.
    rewrite !rapidCount_times, (times_of_sort Hp). reflexivity. }
  split.
  { rewrite !checkBotActivity_block. unfold botActivityBlock.
    rewrite !suspiciousIntervals_times, (times_of_sort Hp). reflexivity. }
  split.
  { rewrite !checkUnusualHours_block. unfold unusualHoursBlock, unusualHourTrades.
    rewrite (filter_length_perm _ Hp). reflexivity. }
  split.
  { unfold brokenStreak, unbrokenStreak.
    eapply perm_trans; [apply perm_skip, perm_swap|apply perm_swap]. }
  split; reflexivity.
Qed.

Lemma four_detectors_ignore_trade_order_witness :
  checkRapidTrading brokenStreak riskEngine = checkRapidTrading unbrokenStreak riskEngine /\
  checkBotActivity brokenStreak riskEngine = checkBotActivity unbrokenStreak riskEngine.
Proof.
  assert (Hp : Permutation brokenStreak unbrokenStreak).
  { unfold brokenStreak, unbrokenStreak.
    eapply perm_trans; [apply perm_skip, perm_swap|apply perm_swap]. }
  destruct (four_detectors_ignore_trade_order beforeMidnight riskEngine Hp)
    as [_ [Hr [Hb _]]].
  split; [exact Hr|exact Hb].
Defined.

(** ** Bounds on the counters *)

Lemma adjacentPairs_length {A} (l : list A) : length (adjacentPairs l) = length l - 1.
Proof.
  induction l as [|x l IH]; [reflexivity|].
  destruct l as [|y l]; [reflexivity|].
  change (adjacentPairs (x :: y :: l)) with ((x, y) :: adjacentPairs (y :: l)).
  cbn [length] in *. rewrite IH. lia.
Qed.

Lemma countAdjacent_le {A} (test : A -> A -> bool) (l : list A) :
  countAdjacent test l <= length l - 1.
Proof.
  unfold countAdjacent. rewrite <- adjacentPairs_length. apply filter_length_le.
Qed.

Lemma lossRun_length (trades seg : list Trade.t) :
  lossRun trades seg -> length seg <= length trades.
Proof.
  intros [[pre [post E]] _]. rewrite E, !length_app. lia.
Qed.

Lemma maxStreak_le_length (trades : list Trade.t) :
  snd (lossStreakLoop trades) <= length trades.
Proof.
  destruct (lossStreakLoop_longest trades) as [[seg [Hrun Hlen]] _].
  rewrite <- Hlen. exact (lossRun_length Hrun).
Qed.

Lemma rapidCount_le (th : Thresholds) (trades : list Trade.t) :
  rapidCount th trades <= length trades - 1.
Proof.
  unfold rapidCount. cbv zeta. rewrite countStep_loop by lia. rewrite firstn_all.
  rewrite <- (sort_length byPurchaseTime trades). apply countAdjacent_le.
Qed.

Lemma martingaleCount_le (th : Thresholds) (trades : list Trade.t) :
  martingaleCount th trades <= length trades - 1.
Proof.
  rewrite martingaleCount_adjacent.
  rewrite <- (sort_length byPurchaseTime trades). apply countAdjacent_le.
Qed.

Lemma suspiciousIntervals_le (th : Thresholds) (trades : list Trade.t) :
  suspiciousIntervals th trades <= Nat.min (length trades) 20 - 1.
Proof.
  rewrite suspiciousIntervals_adjacent.
  eapply Nat.le_trans; [apply countAdjacent_le|].
  rewrite length_firstn, sort_length. lia.
Qed.

(** X11: the value a warning carries is bounded by the size of the
    history: the trades of today and of the unusual hours and the longest
    loss streak by the number [n] of trades, the rapid-trading and martingale
    counts by [n - 1], the bot-activity count by [min n 20 - 1], hence by 19. *)
Theorem counters_are_bounded (clock : Clock) (th : Thresholds) (trades : list Trade.t) :
  let n := length trades in
  length (todayTrades clock trades) <= n /\
  snd (lossStreakLoop trades) <= n /\
  rapidCount th trades <= n - 1 /\
  martingaleCount th trades <= n - 1 /\
  suspiciousIntervals th trades <= Nat.min n 20 - 1 /\
  suspiciousIntervals th trades <= 19 /\
  length (unusualHourTrades clock trades) <= n.
Proof.
  cbv zeta.
  split; [apply filter_length_le|].
  split; [apply maxStreak_le_length|].
  split; [apply rapidCount_le|].
  split; [apply martingaleCount_le|].
  split; [apply suspiciousIntervals_le|].
  split; [pose proof (suspiciousIntervals_le th trades); lia|].
  apply filter_length_le.
Qed.

(** X12: short histories cannot trigger the counting detectors, whatever
    the thresholds: the martingale detector needs at least 4 trades, the
    bot-activity detector 6, the rapid-trading detector 7, the unusual-hours
    detector 10.  With fewer than 4 trades the analysis can report only
    overtrading, a loss streak and a balance depletion. *)
Theorem short_histories_are_silent (clock : Clock) (trades : list Trade.t)
    (currentBalance initialBalance : option num) (w : World) :
  (length trades < 4 ->
   checkMartingalePattern trades w = (tt, emit CheckMartingalePattern [] w)) /\
  (length trades < 6 ->
   checkBotActivity trades w = (tt, emit CheckBotActivity [] w)) /\
  (length trades < 7 ->
   checkRapidTrading trades w = (tt, emit CheckRapidTrading [] w)) /\
  (length trades < 10 ->
   checkUnusualHours clock trades w = (tt, emit CheckUnusualHours [] w)) /\
  (length trades < 4 ->
   subsequence
     (map type (AnalysisResult.warnings
        (fst (analyzeTradeHistory clock (Some trades) currentBalance initialBalance w))))
     [OVERTRADING; HIGH_LOSS_STREAK; BALANCE_DEPLETION] = true).
Proof.
  assert (Hm : forall th, length trades < 4 -> martingaleBlock trades th = []).
  { intros th H. unfold martingaleBlock. cbv zeta.
    pose proof (martingaleCount_le th trades).
    destruct (Nat.leb_spec 3 (martingaleCount th trades)); [lia|reflexivity]. }
  assert (Hb : forall th, length trades < 6 -> botActivityBlock trades th = []).
  { intros th H. unfold botActivityBlock. cbv zeta.
    pose proof (suspiciousIntervals_le th trades).
    destruct (Nat.leb_spec 5 (suspiciousIntervals th trades)); [lia|reflexivity]. }
  assert (Hr : forall th, length trades < 7 -> rapidTradingBlock trades th = []).
  { intros th H. unfold rapidTradingBlock. cbv zeta.
    pose proof (rapidCount_le th trades).
    destruct (Nat.ltb_spec 5 (rapidCount th trades)); [lia|reflexivity]. }
  assert (Hu : length trades < 10 -> unusualHoursBlock clock trades = []).
  { intros H. unfold unusualHoursBlock. cbv zeta.
    assert (Hle : length (unusualHourTrades clock trades) <= length trades)
      by apply filter_length_le.
    destruct (Nat.leb_spec 10 (length (unusualHourTrades clock trades)));
      [lia|reflexivity]. }
  split; [intros H; rewrite checkMartingalePattern_block, Hm by exact H; reflexivity|].
  split; [intros H; rewrite checkBotActivity_block, Hb by exact H; reflexivity|].
  split; [intros H; rewrite checkRapidTrading_block, Hr by exact H; reflexivity|].
  split; [intros H; rewrite checkUnusualHours_block, Hu by exact H; reflexivity|].
  intros H. rewrite analysis_result_of.
  destruct trades as [|t ts]; [reflexivity|].
  cbn [analysisOf AnalysisResult.warnings]. unfold historyWarnings.
  rewrite Hm, Hb, Hr, Hu by lia.
  unfold overtradingBlock, lossStreakBlock, balanceDepletionBlock. cbv zeta.
  destruct (_ >? _)%num; destruct (_ >=? maxLossStreak _)%num;
    destruct (_ || _); try destruct (_ >=? balanceDropPercent _)%num; reflexivity.
Qed.

(** ** Calling the methods directly *)



Lemma gt_of_nat (a b : nat) : (of_nat a >? of_nat b)%num = (b <? a).
Proof.
  unfold gt, lt, of_nat, of_Z, Qle_bool, inject_Z. simpl.
  rewrite !Z.mul_1_r.
  destruct (Nat.ltb_spec b a).
  - apply negb_true_iff, Z.leb_gt. lia.
  - apply negb_false_iff, Z.leb_le. lia.
Qed.

(** X14: the overtrading rule is strict and follows the override: after
    [setThresholds({ maxDailyTrades: k })], [checkOvertrading] appends its HIGH
    warning, valued with the number of today's trades, exactly when that
    number is greater than [k]; trades of other days do not count. *)
Theorem overtrading_follows_override (k : nat) (clock : Clock)
    (trades others : list Trade.t) (w : World) :
  let n := length (todayTrades clock trades) in
  warnings (this (snd ((setThresholds (onlyMaxDailyTrades (of_nat k)) ;;
                        checkOvertrading clock trades) w)))
  = warnings (this w) ++
    (if k <? n
     then [{| type := OVERTRADING; level := HIGH;
              message := HighTradingFrequency n (of_nat k);
              value := of_nat n; isBotLikely := None; contractId := None |}]
     else []) /\
  (todayTrades clock others = [] ->
   checkOvertrading clock (others ++ trades) w = checkOvertrading clock trades w).
Proof.
  cbv zeta. split.
  - rewrite bind_run, checkOvertrading_block. unfold overtradingBlock.
    cbn [snd setThresholds this thresholds warnings emit spread maxDailyTrades
         onlyMaxDailyTrades maxDailyTrades' override].
    rewrite gt_of_nat. reflexivity.
  - intros H. rewrite !checkOvertrading_block. unfold overtradingBlock.
    unfold todayTrades in *. rewrite filter_app, H. reflexivity.
Qed.

(** ** Signs under rounding *)

Lemma nearestEven_nonneg (N D : Z) :
  (0 <= N)%Z -> (0 < D)%Z -> (0 <= nearestEven N D)%Z.
Proof.
  intros HN HD. unfold nearestEven.
  pose proof (Z.div_pos N D HN HD) as Hm.
  destruct (2 * (N mod D) ?= D)%Z; [destruct (Z.even (N / D))|..]; lia.
Qed.

(** The nearest double of a positive rational is not negative. *)
Lemma roundPos_sign (n d : positive) :
  match roundPos n d with
  | Fin r => (0 <= r)%Q
  | PInf => True
  | _ => False
  end.
Proof.
  unfold roundPos.
  set (k := Z.max (floorLog2 n d - 52) (-1074)).
  set (m := nearestEven (Zpos n * 2 ^ Z.max (- k) 0) (Zpos d * 2 ^ Z.max k 0)).
  destruct (2 ^ 1024 <=? m * 2 ^ Z.max k 0)%Z; [exact I|].
  rewrite Qred_correct. unfold Qle. cbn [Qnum Qden].
  assert (Hp1 : (0 <= 2 ^ Z.max (- k) 0)%Z) by (apply Z.pow_nonneg; lia).
  assert (Hp2 : (0 < 2 ^ Z.max k 0)%Z) by (apply Z.pow_pos_nonneg; lia).
  assert (Hm : (0 <= m)%Z).
  { apply nearestEven_nonneg; [apply Z.mul_nonneg_nonneg|apply Z.mul_pos_pos]; lia. }
  assert (0 <= m * 2 ^ Z.max k 0)%Z by (apply Z.mul_nonneg_nonneg; lia).
  lia.
Qed.

Lemma round_nonPositive (q : Q) : (q <= 0)%Q -> nonPositive (round q).
Proof.
  destruct q as [n d]. unfold round. cbn [Qnum Qden]. intros H.
  destruct n as [|n|n].
  - apply Qle_refl.
  - exfalso. unfold Qle in H. cbn [Qnum Qden] in H. lia.
  - pose proof (roundPos_sign n d) as Hs.
    destruct (roundPos n d) as [r| | | |]; try contradiction; [|exact I].
    cbn [opp]. destruct (Qeq_bool r 0); [exact I|].
    cbn [nonPositive]. apply Qopp_le_compat in Hs. exact Hs.
Qed.

Lemma zero_nonPositive (neg : bool) : nonPositive (zero neg).
Proof. destruct neg; [exact I|apply Qle_refl]. Qed.

Lemma Qnum_negative (q : Q) : (0 <= q)%Q -> (Qnum q <? 0)%Z = false.
Proof.
  intros H. apply Z.ltb_ge. unfold Qle in H. cbn [Qnum Qden] in H. lia.
Qed.

Lemma Qnum_negative_true (q : Q) : (q < 0)%Q -> (Qnum q <? 0)%Z = true.
Proof.
  intros H. apply Z.ltb_lt. unfold Qlt in H. cbn [Qnum Qden] in H. lia.
Qed.

Lemma not_zero (q : Q) : ~ (q == 0)%Q -> Qeq_bool q 0 = false.
Proof.
  intros H. destruct (Qeq_bool q 0) eqn:E; [|reflexivity].
  apply Qeq_bool_eq in E. contradiction.
Qed.

Lemma positive_not_zero (q : Q) : (0 < q)%Q -> ~ (q == 0)%Q.
Proof. intros H E. rewrite E in H. exact (Qlt_irrefl 0 H). Qed.

Lemma negative_not_zero (q : Q) : (q < 0)%Q -> ~ (q == 0)%Q.
Proof. intros H E. rewrite E in H. exact (Qlt_irrefl 0 H). Qed.

Lemma quotient_nonpos (a i : Q) : (a <= 0)%Q -> (0 < i)%Q -> (a / i <= 0)%Q.
Proof.
  intros Ha Hi.
  assert (H0 : (0 <= (- a) * / i)%Q).
  { apply Qmult_le_0_compat.
    - apply Qopp_le_compat in Ha. exact Ha.
    - apply Qlt_le_weak, Qinv_lt_0_compat, Hi. }
  apply Qopp_le_compat in H0.
  assert (E : (a / i == - ((- a) * / i))%Q) by (unfold Qdiv; ring).
  rewrite E. exact H0.
Qed.

Lemma product_nonpos (a k : Q) : (a <= 0)%Q -> (0 < k)%Q -> (a * k <= 0)%Q.
Proof.
  intros Ha Hk.
  assert (H0 : (0 <= (- a) * k)%Q).
  { apply Qmult_le_0_compat.
    - apply Qopp_le_compat in Ha. exact Ha.
    - apply Qlt_le_weak, Hk. }
  apply Qopp_le_compat in H0.
  assert (E : (a * k == - ((- a) * k))%Q) by ring.
  rewrite E. exact H0.
Qed.

Lemma quotient_by_negative (b q : Q) : (0 <= b)%Q -> (q < 0)%Q -> (b / q <= 0)%Q.
Proof.
  intros Hb Hq.
  assert (Hq' : (0 < - q)%Q) by (apply Qopp_lt_compat in Hq; exact Hq).
  assert (H0 : (0 <= b * / (- q))%Q).
  { apply Qmult_le_0_compat; [exact Hb|].
    apply Qlt_le_weak, Qinv_lt_0_compat, Hq'. }
  apply Qopp_le_compat in H0.
  assert (E : (b / q == - (b * / (- q)))%Q).
  { unfold Qdiv. field. exact (negative_not_zero Hq). }
  rewrite E. exact H0.
Qed.

(** A difference that cannot be positive. *)
Lemma sub_nonPositive (i c : Q) : (i <= c)%Q -> nonPositive (Fin i - Fin c)%num.
Proof.
  intros H. unfold sub. cbn [valueOf].
  destruct (Qeq_bool (i - c) 0); [apply zero_nonPositive|].
  apply round_nonPositive. apply Qle_minus_iff in H.
  apply Qopp_le_compat in H.
  assert (E : (i - c == - (c + - i))%Q) by ring.
  rewrite E. exact H.
Qed.

(** Dividing by a positive number keeps the sign. *)
Lemma div_nonPositive (a : num) (i : Q) :
  nonPositive a -> (0 < i)%Q -> nonPositive (a / Fin i)%num.
Proof.
  intros Ha Hi. pose proof (not_zero (positive_not_zero Hi)) as Hz.
  destruct a as [q| | | |]; try contradiction; unfold div;
    cbn [isZero valueOf negative]; rewrite ?Hz.
  - destruct (Qeq_bool q 0); [apply zero_nonPositive|].
    apply round_nonPositive, quotient_nonpos; assumption.
  - rewrite (Qnum_negative (Qlt_le_weak _ _ Hi)). exact I.
  - rewrite (Qnum_negative (Qlt_le_weak _ _ Hi)). exact I.
Qed.

(** Multiplying by a positive number keeps the sign. *)
Lemma mul_nonPositive (a : num) (k : Q) :
  nonPositive a -> (0 < k)%Q -> nonPositive (a * Fin k)%num.
Proof.
  intros Ha Hk. pose proof (not_zero (positive_not_zero Hk)) as Hz.
  destruct a as [q| | | |]; try contradiction; unfold mul;
    cbn [isZero valueOf negative]; rewrite ?Hz.
  - destruct (Qeq_bool (q * k) 0); [apply zero_nonPositive|].
    apply round_nonPositive, product_nonpos; assumption.
  - rewrite (Qnum_negative (Qlt_le_weak _ _ Hk)). exact I.
  - destruct (Qeq_bool (0 * k) 0); [apply zero_nonPositive|].
    apply round_nonPositive. rewrite Qmult_0_l. apply Qle_refl.
Qed.

(** A non-negative number over a negative one. *)
Lemma div_by_negative (b q : Q) :
  (0 <= b)%Q -> (q < 0)%Q -> nonPositive (Fin b / Fin q)%num.
Proof.
  intros Hb Hq. unfold div. cbn [isZero valueOf negative].
  rewrite (not_zero (negative_not_zero Hq)).
  destruct (Qeq_bool b 0); [apply zero_nonPositive|].
  apply round_nonPositive, quotient_by_negative; assumption.
Qed.

Lemma ge_nonPositive (a : num) (m : Q) :
  nonPositive a -> (0 < m)%Q -> (a >=? Fin m)%num = false.
Proof.
  intros Ha Hm. unfold ge, le.
  destruct a as [q| | | |]; try contradiction; cbn [norm]; try reflexivity.
  - destruct (Qle_bool m q) eqn:E; [|reflexivity].
    apply Qle_bool_iff in E. exfalso. apply (Qlt_irrefl 0).
    eapply Qlt_le_trans; [exact Hm|]. eapply Qle_trans; [exact E|exact Ha].
  - destruct (Qle_bool m 0) eqn:E; [|reflexivity].
    apply Qle_bool_iff in E. exfalso. apply (Qlt_irrefl 0).
    eapply Qlt_le_trans; [exact Hm|exact E].
Qed.

Lemma gt_nonPositive (a : num) (m : Q) :
  nonPositive a -> (0 <= m)%Q -> (a >? Fin m)%num = false.
Proof.
  intros Ha Hm. unfold gt, lt.
  destruct a as [q| | | |]; try contradiction; cbn [norm]; try reflexivity.
  - apply negb_false_iff, Qle_bool_iff. eapply Qle_trans; [exact Ha|exact Hm].
  - apply negb_false_iff, Qle_bool_iff. exact Hm.
Qed.

(** ** The balance-depletion rule on finite balances *)

Lemma guard_passes (i : Q) :
  ~ (i == 0)%Q ->
  negb (truthy (Fin i)) || (Fin i === of_Z 0)%num = false.
Proof.
  intros Hi. unfold truthy, strict_eq, of_Z. cbn [norm].
  change (inject_Z 0) with 0%Q. rewrite (not_zero Hi). reflexivity.
Qed.

(** X15: with a finite, non-zero initial balance the rule works on the
    percent [(initialBalance - currentBalance) / initialBalance * 100] as the
    doubles give it: it appends one warning, valued with that percent,
    exactly when the percent is at least [balanceDropPercent], CRITICAL from
    50 on and HIGH below.  From 1000 down to 750 the percent is 25 (HIGH),
    down to 400 it is 60 (CRITICAL); from 100 down to 43 it is
    56.99999999999999, below a threshold of 57. *)
Theorem balance_depletion_formula (currentBalance : option num) (i : Q) (w : World) :
  ~ (i == 0)%Q ->
  let th := thresholds (this w) in
  let percent :=
    ((Fin i - toNumber currentBalance) / Fin i * of_Z 100)%num in
  checkBalanceDepletion currentBalance (Some (Fin i)) w
  = (tt, emit CheckBalanceDepletion
           (if (percent >=? balanceDropPercent th)%num
            then [{| type := BALANCE_DEPLETION;
                     level := if (percent >=? of_Z 50)%num then CRITICAL else HIGH;
                     message := SignificantBalanceDrop percent;
                     value := percent;
                     isBotLikely := None;
                     contractId := None |}]
            else [])
           w) /\
  (forall r m, percent = Fin r -> balanceDropPercent th = Fin m ->
     ((percent >=? balanceDropPercent th)%num = true <-> (m <= r)%Q)) /\
  (forall r, percent = Fin r -> ((percent >=? of_Z 50)%num = true <-> (50 <= r)%Q)) /\
  ((of_Z 1000 - of_Z 750) / of_Z 1000 * of_Z 100)%num = of_Z 25 /\
  ((of_Z 1000 - of_Z 400) / of_Z 1000 * of_Z 100)%num = of_Z 60 /\
  ((of_Z 100 - of_Z 43) / of_Z 100 * of_Z 100)%num
  = Fin (8022036836253695 # 140737488355328) /\
  warnings (this (snd ((setThresholds
                          {| maxDailyTrades' := None; maxLossStreak' := None;
                             maxPositionPercent' := None;
                             minTimeBetweenTrades' := None;
                             martingaleMultiplier' := None;
                             balanceDropPercent' := Some (of_Z 57);
                             botTradeInterval' := None |} ;;
                        checkBalanceDepletion (Some (of_Z 43)) (Some (of_Z 100)))
                         riskEngine))) = [].
Proof.
  intros Hi th percent.
  split.
  { rewrite checkBalanceDepletion_block. unfold balanceDepletionBlock.
    cbn [toNumber]. rewrite (guard_passes Hi). reflexivity. }
  split.
  { intros r m Hr Hm. rewrite Hr, Hm. unfold ge, le. cbn [norm].
    apply Qle_bool_iff. }
  split.
  { intros r Hr. rewrite Hr. unfold ge, le, of_Z. cbn [norm].
    apply Qle_bool_iff. }
  repeat split; vm_compute; reflexivity.
Qed.

Lemma balance_depletion_formula_witness :
  warnings (this (snd (checkBalanceDepletion (Some (of_Z 750)) (Some (Fin 1000))
                         riskEngine)))
  = [{| type := BALANCE_DEPLETION; level := HIGH;
        message := SignificantBalanceDrop (of_Z 25);
        value := of_Z 25; isBotLikely := None; contractId := None |}].
Proof.
  assert (Hi : ~ (1000 == 0)%Q) by (intros H; discriminate H).
  destruct (@balance_depletion_formula (Some (of_Z 750)) 1000 riskEngine Hi)
    as [E _].
  rewrite E. vm_compute. reflexivity.
Defined.

(** X16: a balance that has not fallen never triggers the rule: with
    [0 < initialBalance <= currentBalance] and a positive [balanceDropPercent]
    no warning is appended. *)
Theorem grown_balance_is_silent (c i m : Q) (w : World) :
  (0 < i)%Q -> (i <= c)%Q -> (0 < m)%Q ->
  balanceDropPercent (thresholds (this w)) = Fin m ->
  checkBalanceDepletion (Some (Fin c)) (Some (Fin i)) w
  = (tt, emit CheckBalanceDepletion [] w).
Proof.
  intros Hi Hc Hm Hth.
  rewrite checkBalanceDepletion_block. unfold balanceDepletionBlock.
  cbn [toNumber]. rewrite (guard_passes (positive_not_zero Hi)). cbv zeta.
  unfold dropPercent. cbn [toNumber]. rewrite Hth.
  rewrite ge_nonPositive; [reflexivity| |exact Hm].
  unfold of_Z. apply mul_nonPositive; [|reflexivity].
  apply div_nonPositive; [|exact Hi].
  apply sub_nonPositive, Hc.
Qed.

Lemma grown_balance_is_silent_witness :
  checkBalanceDepletion (Some (Fin 1200)) (Some (Fin 1000)) riskEngine
  = (tt, emit CheckBalanceDepletion [] riskEngine).
Proof.
  apply (@grown_balance_is_silent 1200 1000 20 riskEngine); reflexivity || discriminate.
Defined.

(** X17: when [currentBalance] is absent or not a number, or
    [initialBalance] is not a number, the rule appends nothing, whatever the
    other balance and the thresholds are. *)
Theorem balance_depletion_needs_numbers (balance : option num) (w : World) :
  checkBalanceDepletion None balance w = (tt, emit CheckBalanceDepletion [] w) /\
  checkBalanceDepletion (Some NaN) balance w = (tt, emit CheckBalanceDepletion [] w) /\
  checkBalanceDepletion balance (Some NaN) w = (tt, emit CheckBalanceDepletion [] w).
Proof.
  rewrite !checkBalanceDepletion_block. unfold balanceDepletionBlock, dropPercent.
  cbn [toNumber].
  repeat split.
  - destruct (_ || _); [reflexivity|]. cbv zeta.
    destruct (toNumber balance); destruct (balanceDropPercent _); reflexivity.
  - destruct (_ || _); [reflexivity|]. cbv zeta.
    destruct (toNumber balance); destruct (balanceDropPercent _); reflexivity.
Qed.

(** ** The exposure evaluator on balances that are not positive *)

Lemma percent_over_zero (b : Q) :
  (0 < b)%Q ->
  (Fin b / of_Z 0 * of_Z 100)%num = PInf /\ (Fin b / NZero * of_Z 100)%num = NInf.
Proof.
  intros Hb. unfold div, of_Z. cbn [isZero negative valueOf].
  change (Qeq_bool (inject_Z 0) 0) with true.
  rewrite (not_zero (positive_not_zero Hb)), (Qnum_negative (Qlt_le_weak _ _ Hb)).
  split; reflexivity.
Qed.

(** X18: on a balance of (positive) zero, such as the literal [0], every
    position with a positive price is reported, CRITICAL, with the value
    Infinity, whatever finite [maxPositionPercent] is set; on a balance of
    negative zero the percent of such a position is minus Infinity and
    nothing is reported. *)
Theorem zero_balance_flags_every_position (positions : list Position.t) (m : Q)
    (w : World) :
  maxPositionPercent (thresholds (this w)) = Fin m ->
  Forall (finitePrice (fun b => 0 < b)%Q) positions ->
  fst (analyzeOpenPositions positions (of_Z 0) w) = map infiniteExposure positions /\
  fst (analyzeOpenPositions positions NZero w) = [].
Proof.
  intros Hm Hall. rewrite !analyzeOpenPositions_out, Hm. split.
  - induction Hall as [|p ps [b [Hb Hpos]] _ IH]; [reflexivity|].
    destruct (percent_over_zero Hpos) as [Hplus _].
    cbn [filter map]. unfold positionPercent at 1. rewrite Hb, Hplus.
    change (PInf >? Fin m)%num with true. cbv iota. cbn [map]. rewrite IH.
    f_equal. unfold largePositionWarning, infiniteExposure, positionPercent.
    rewrite Hb, Hplus. reflexivity.
  - induction Hall as [|p ps [b [Hb Hpos]] _ IH]; [reflexivity|].
    destruct (percent_over_zero Hpos) as [_ Hminus].
    cbn [filter]. unfold positionPercent at 1. rewrite Hb, Hminus.
    change (NInf >? Fin m)%num with false. cbv iota. exact IH.
Qed.

Lemma zero_balance_flags_every_position_witness :
  fst (analyzeOpenPositions examplePositions (of_Z 0) riskEngine)
  = map infiniteExposure examplePositions.
Proof.
  apply (@zero_balance_flags_every_position examplePositions 10 riskEngine).
  - reflexivity.
  - repeat constructor; eexists; (split; [reflexivity|reflexivity]).
Defined.

(** X19: on a negative balance no position with a price that is finite and
    not negative is reported, as long as [maxPositionPercent] is not
    negative: the percent is then at most zero. *)
Theorem negative_balance_flags_nothing (positions : list Position.t) (q m : Q)
    (w : World) :
  (q < 0)%Q -> (0 <= m)%Q ->
  maxPositionPercent (thresholds (this w)) = Fin m ->
  Forall (finitePrice (fun b => 0 <= b)%Q) positions ->
  fst (analyzeOpenPositions positions (Fin q) w) = [].
Proof.
  intros Hq Hm Hth Hall. rewrite analyzeOpenPositions_out, Hth.
  induction Hall as [|p ps [b [Hb Hpos]] _ IH]; [reflexivity|].
  cbn [filter]. unfold positionPercent at 1. rewrite Hb.
  rewrite gt_nonPositive; [exact IH| |exact Hm].
  unfold of_Z. apply mul_nonPositive; [|reflexivity].
  apply div_by_negative; assumption.
Qed.

Lemma negative_balance_flags_nothing_witness :
  fst (analyzeOpenPositions examplePositions (Fin (-5)) riskEngine) = [].
Proof.
  apply (@negative_balance_flags_nothing examplePositions (-5) 10 riskEngine).
  - reflexivity.
  - discriminate.
  - reflexivity.
  - repeat constructor; eexists; (split; [reflexivity|discriminate]).
Defined.

(** ** The loss streak under more history *)

Lemma lossRun_inside (pre p post seg : list Trade.t) :
  lossRun p seg -> lossRun (pre ++ p ++ post) seg.
Proof.
  intros [[a [b E]] Hl]. split; [|exact Hl].
  exists (pre ++ a), (b ++ post). rewrite E, <- !app_assoc. reflexivity.
Qed.

Lemma maxStreak_inside (pre p post : list Trade.t) :
  snd (lossStreakLoop p) <= snd (lossStreakLoop (pre ++ p ++ post)).
Proof.
  destruct (lossStreakLoop_longest p) as [[seg [Hrun Hlen]] _].
  destruct (lossStreakLoop_longest (pre ++ p ++ post)) as [_ Hmax].
  rewrite <- Hlen. apply Hmax. apply lossRun_inside. exact Hrun.
Qed.

Lemma ge_of_nat_mono (a b : nat) (t : num) :
  a <= b -> (of_nat a >=? t)%num = true -> (of_nat b >=? t)%num = true.
Proof.
  intros Hab. unfold ge, le, of_nat, of_Z.
  destruct t as [x| | | |]; cbn [norm]; try trivial;
    rewrite !Qle_bool_iff; intros Hx; (eapply Qle_trans; [exact Hx|]);
    rewrite <- Zle_Qle; lia.
Qed.

(** X20: more history never hides a loss streak: the longest streak of a
    list of trades is at most that of any list that contains it as a block,
    so a history that triggers the loss-streak warning still triggers it
    after older trades are put in front and newer ones behind. *)
Theorem loss_streak_survives_extension (pre p post : list Trade.t) (w : World) :
  warnings (this (snd (checkLossStreak p w))) <> warnings (this w) ->
  snd (lossStreakLoop p) <= snd (lossStreakLoop (pre ++ p ++ post)) /\
  warnings (this (snd (checkLossStreak (pre ++ p ++ post) w))) <> warnings (this w).
Proof.
  intros Hp. split; [apply maxStreak_inside|].
  rewrite checkLossStreak_block in *. cbn [snd emit this warnings] in *.
  unfold lossStreakBlock in *. cbv zeta in *.
  destruct (of_nat (snd (lossStreakLoop p)) >=? _)%num eqn:E.
  - rewrite (ge_of_nat_mono _ (maxStreak_inside pre p post) E).
    intros H. rewrite <- (app_nil_r (warnings (this w))) in H at 2.
    apply app_inv_head in H. discriminate H.
  - exfalso. apply Hp. apply app_nil_r.
Qed.

Lemma loss_streak_survives_extension_witness :
  warnings (this (snd (checkLossStreak ([winAt 1] ++ fiveLosses ++ [winAt 9]) riskEngine)))
  <> warnings (this riskEngine).
Proof.
  apply (@loss_streak_survives_extension [winAt 1] fiveLosses [winAt 9] riskEngine).
  discriminate.
Defined.

(** * The symbol helpers *)

Module SymbolFacts.
Import String Symbols.
Local Open Scope string_scope.

Lemma prefix_app (a b s : string) : prefix (a ++ b) s = true -> prefix a s = true.
Proof.
  revert s. induction a as [|c a IH]; intros s H.
  - destruct s; reflexivity.
  - destruct s as [|d s]; [discriminate H|].
    simpl in *. destruct (Ascii.ascii_dec c d); [apply IH; exact H|discriminate H].
Qed.

(** A string that holds [a ++ b] holds [a]. *)
Lemma includes_app (a b s : string) :
  includes s (a ++ b) = true -> includes s a = true.
Proof.
  induction s as [|c s IH]; cbn [includes]; intros H;
    apply orb_true_iff in H as [H|H]; apply orb_true_iff.
  - left. exact (@prefix_app a b _ H).
  - discriminate H.
  - left. exact (@prefix_app a b _ H).
  - right. exact (IH H).
Qed.

Lemma includes_R_100 (s : string) :
  includes s "R_100" = true -> includes s "R_10" = true.
Proof. exact (includes_app "R_10" "0" s). Qed.

Lemma symbols_named (x : string) :
  In x symbols -> (x =? "") = false /\ x <> "UNKNOWN".
Proof.
  unfold symbols. cbn [In]. intros H.
  repeat (destruct H as [<-|H]; [split; [reflexivity|discriminate]|]).
  destruct H.
Qed.

(** X21: [extractSymbol] never answers R_100: a shortcode of that market
    holds R_10 as well, which comes first in the list, so it is labelled
    R_10.  Otherwise the answer is UNKNOWN or a listed symbol that occurs in
    the shortcode. *)
Theorem extractSymbol_never_R_100 (shortcode : option string) :
  extractSymbol shortcode <> "R_100" /\
  (forall sc, includes sc "R_100" = true -> extractSymbol (Some sc) = "R_10") /\
  (extractSymbol shortcode = "UNKNOWN" \/
   exists sc, shortcode = Some sc /\ In (extractSymbol shortcode) symbols /\
              includes sc (extractSymbol shortcode) = true).
Proof.
  assert (Hfirst : forall sc, includes sc "R_100" = true ->
                              extractSymbol (Some sc) = "R_10").
  { intros sc H. pose proof (@includes_R_100 _ H) as H10.
    unfold extractSymbol. destruct (sc =? "") eqn:E.
    - apply eqb_eq in E. subst sc. discriminate H.
    - cbv zeta. unfold symbols. cbn [find]. rewrite H10. reflexivity. }
  assert (Hshape : extractSymbol shortcode = "UNKNOWN" \/
            exists sc, shortcode = Some sc /\ In (extractSymbol shortcode) symbols /\
                       includes sc (extractSymbol shortcode) = true).
  { destruct shortcode as [sc|]; [|left; reflexivity].
    unfold extractSymbol. destruct (sc =? ""); [left; reflexivity|]. cbv zeta.
    destruct (find (fun sym => includes sc sym) symbols) as [x|] eqn:F;
      [|left; reflexivity].
    apply find_some in F as [Hin Hinc]. cbn [orUnknown].
    destruct (@symbols_named x Hin) as [-> _].
    right. exists sc. repeat split; assumption. }
  split; [|split; [exact Hfirst|exact Hshape]].
  intros E. destruct Hshape as [U|[sc [-> [_ Hinc]]]].
  - rewrite U in E. discriminate E.
  - rewrite E in Hinc. rewrite (Hfirst sc Hinc) in E. discriminate E.
Qed.

(** X22: the filter of [getTradeHistory] and [extractSymbol] agree: a
    transaction passes the filter exactly when [extractSymbol] finds a symbol
    for its shortcode, so no trade that is kept is labelled UNKNOWN. *)
Theorem kept_transactions_have_a_symbol (shortcode : option string) :
  keepsShortcode shortcode = true <-> extractSymbol shortcode <> "UNKNOWN".
Proof.
  destruct shortcode as [sc|]; [|split; [discriminate|intros H; exfalso; apply H; reflexivity]].
  unfold keepsShortcode, extractSymbol.
  change syntheticSymbols with symbols.
  destruct (sc =? "") eqn:E.
  - apply eqb_eq in E. subst sc. split; [discriminate|].
    intros H. exfalso. apply H. reflexivity.
  - cbv zeta.
    destruct (find (fun sym => includes sc sym) symbols) as [x|] eqn:F.
    + pose proof (find_some _ _ F) as [Hin Hinc]. cbn [orUnknown].
      destruct (@symbols_named x Hin) as [-> Hx].
      split; [intros _; exact Hx|intros _].
      apply existsb_exists. exists x. split; assumption.
    + split; [|intros H; exfalso; apply H; reflexivity].
      intros H. apply existsb_exists in H as [x [Hin Hinc]].
      pose proof (find_none _ _ F x Hin) as Hn. cbv beta in Hn. congruence.
Qed.

End SymbolFacts.

(** * Two more detectors *)

Lemma lt_of_Z (a b : Z) : (of_Z a <? of_Z b)%num = (a <? b)%Z.
Proof.
  unfold lt, of_Z, Qle_bool, inject_Z. simpl. rewrite !Z.mul_1_r.
  destruct (Z.ltb_spec a b).
  - apply negb_true_iff, Z.leb_gt. lia.
  - apply negb_false_iff, Z.leb_le. lia.
Qed.

(** X23: the rapid-trading detector works on the copy sorted by purchase
    time; its count is the number of adjacent pairs of that copy bought
    strictly less than [minTimeBetweenTrades] seconds apart (a gap equal to
    the threshold does not count); it appends one MEDIUM warning, valued with
    the count, when the count is greater than 5, and nothing otherwise. *)
Theorem checkRapidTrading_counts_short_gaps (trades : list Trade.t) (w : World) :
  let th := thresholds (this w) in
  let sortedTrades := sort byPurchaseTime trades in
  let count :=
    countAdjacent
      (fun prevTrade currTrade =>
         (of_Z (Trade.purchase_time currTrade - Trade.purchase_time prevTrade)
          <? minTimeBetweenTrades th)%num)
      sortedTrades in
  checkRapidTrading trades w =
    (tt, emit CheckRapidTrading
           (if 5 <? count
            then [{| type := RAPID_TRADING;
                     level := MEDIUM;
                     message := RapidTradingDetected count (minTimeBetweenTrades th);
                     value := of_nat count;
                     isBotLikely := None;
                     contractId := None |}]
            else [])
           w) /\
  (forall gap k : Z, (of_Z gap <? of_Z k)%num = (gap <? k)%Z) /\
  warnings (this (snd (checkRapidTrading (burst 0 ++ [lossAt 6]) riskEngine)))
  = [{| type := RAPID_TRADING; level := MEDIUM;
        message := RapidTradingDetected 6 (of_Z 10); value := of_nat 6;
        isBotLikely := None; contractId := None |}] /\
  warnings (this (snd (checkRapidTrading slowTrades riskEngine))) = [].
Proof.
  cbv zeta.
  assert (Hcount : rapidCount (thresholds (this w)) trades
                   = countAdjacent (rapidTest (thresholds (this w)))
                       (sort byPurchaseTime trades)).
  { unfold rapidCount. cbv zeta. rewrite countStep_loop by lia.
    rewrite firstn_all. reflexivity. }
  split.
  { rewrite checkRapidTrading_block. unfold rapidTradingBlock. cbv zeta.
    rewrite Hcount. reflexivity. }
  split; [intros gap k; apply lt_of_Z|].
  split; reflexivity.
Qed.

Lemma hour_window (x : Z) :
  let hour := ((x mod msPerDay) / msPerHour)%Z in
  (((0 <=? hour) && (hour <? 6))%Z = (x mod msPerDay <? 6 * msPerHour)%Z) /\
  (0 <= hour < 24)%Z.
Proof.
  cbv zeta. unfold msPerDay, msPerHour.
  pose proof (Z.mod_pos_bound x 86400000 eq_refl) as Hm.
  set (r := (x mod 86400000)%Z) in *.
  pose proof (Z.div_mod r 3600000) as Hd.
  pose proof (Z.mod_pos_bound r 3600000 eq_refl) as Hr.
  assert (Hd' : r = (3600000 * (r / 3600000) + r mod 3600000)%Z) by (apply Hd; lia).
  set (h := (r / 3600000)%Z) in *.
  split; [|lia].
  destruct (Z.leb_spec 0 h); destruct (Z.ltb_spec h 6);
    destruct (Z.ltb_spec r (6 * 3600000)); cbn [andb]; try reflexivity; lia.
Qed.

(** X24: the unusual-hours detector counts the trades whose purchase time
    is a valid Date and whose local time of day lies in the six hours from
    midnight, midnight included and 06:00 excluded; the lower test on the
    hour excludes no valid time, the hour being between 0 and 23, and both
    tests fail on the NaN of an Invalid Date, which is never counted.  It
    appends one LOW warning, valued with the count, when the count is at
    least 10, and nothing otherwise. *)
Theorem checkUnusualHours_window (clock : Clock) (trades : list Trade.t) (w : World) :
  let count :=
    length (filter (fun trade =>
                      validTime (Trade.purchase_time trade * 1000) &&
                      (localTime clock (Trade.purchase_time trade * 1000) mod msPerDay
                       <? 6 * msPerHour)%Z)
                   trades) in
  checkUnusualHours clock trades w =
    (tt, emit CheckUnusualHours
           (if 10 <=? count
            then [{| type := UNUSUAL_HOURS;
                     level := LOW;
                     message := UnusualHoursTrading count;
                     value := of_nat count;
                     isBotLikely := None;
                     contractId := None |}]
            else [])
           w) /\
  (forall ms h, getHours clock ms = Some h -> (0 <= h < 24)%Z) /\
  (forall ms, getHours clock ms = None <-> (maxTime < Z.abs ms)%Z) /\
  (forall ms, (maxTime < Z.abs ms)%Z -> beforeSix (getHours clock ms) = false).
Proof.
  cbv zeta. split.
  - rewrite checkUnusualHours_block. unfold unusualHoursBlock, unusualHourTrades.
    cbv zeta.
    rewrite (filter_ext
               (fun trade =>
                  beforeSix (getHours clock (Trade.purchase_time trade * 1000)))
               (fun trade =>
                  validTime (Trade.purchase_time trade * 1000) &&
                  (localTime clock (Trade.purchase_time trade * 1000) mod msPerDay
                   <? 6 * msPerHour)%Z)).
    + reflexivity.
    + intros t. unfold getHours.
      destruct (validTime (Trade.purchase_time t * 1000)); [|reflexivity].
      cbn [beforeSix andb]. apply hour_window.
  - assert (Hv : forall ms, validTime ms = false <-> (maxTime < Z.abs ms)%Z).
    { intros ms. unfold validTime. apply Z.leb_gt. }
    split; [|split].
    + intros ms h. unfold getHours. destruct (validTime ms); [|discriminate].
      intros E. injection E as <-. apply hour_window.
    + intros ms. rewrite <- Hv. unfold getHours.
      destruct (validTime ms); split; intros H; try reflexivity; discriminate H.
    + intros ms H. apply Hv in H. unfold getHours. rewrite H. reflexivity.
Qed.

(** * The arithmetic against the reference

    On the inputs below, where the doubles round, lose a sign or leave their
    range, the operations of [JSNumber] give what the operations of
    [SpecFloat] give. *)
Lemma arithmetic_agrees_with_SpecFloat :
  round (11 # 10) = ofSpecFloat (div64 (int64 11) (int64 10)) /\
  round (9 # 5) = ofSpecFloat (div64 (int64 9) (int64 5)) /\
  (round (11 # 10) * round (9 # 5))%num
  = ofSpecFloat (mul64 (div64 (int64 11) (int64 10)) (div64 (int64 9) (int64 5))) /\
  (of_Z 7 / of_Z 100 * of_Z 100)%num
  = ofSpecFloat (mul64 (div64 (int64 7) (int64 100)) (int64 100)) /\
  ((of_Z 100 - of_Z 43) / of_Z 100 * of_Z 100)%num
  = ofSpecFloat (mul64 (div64 (sub64 (int64 100) (int64 43)) (int64 100)) (int64 100)) /\
  (round (201 # 2) - round (402 # 5))%num
  = ofSpecFloat (sub64 (div64 (int64 201) (int64 2)) (div64 (int64 402) (int64 5))) /\
  (of_Z 100 / of_Z 3)%num = ofSpecFloat (div64 (int64 100) (int64 3)) /\
  (of_Z 100 / of_Z 0)%num = ofSpecFloat (div64 (int64 100) (SpecFloat.S754_zero false)) /\
  (of_Z 100 / NZero)%num = ofSpecFloat (div64 (int64 100) (SpecFloat.S754_zero true)) /\
  (of_Z 0 / of_Z 0)%num
  = ofSpecFloat (div64 (SpecFloat.S754_zero false) (SpecFloat.S754_zero false)) /\
  (of_Z 0 / of_Z (-5))%num = ofSpecFloat (div64 (SpecFloat.S754_zero false) (negInt64 5)) /\
  (of_Z (-5) * of_Z 0)%num = ofSpecFloat (mul64 (negInt64 5) (SpecFloat.S754_zero false)) /\
  (of_Z 5 - of_Z 5)%num = ofSpecFloat (sub64 (int64 5) (int64 5)) /\
  (NZero - of_Z 0)%num
  = ofSpecFloat (sub64 (SpecFloat.S754_zero true) (SpecFloat.S754_zero false)) /\
  (round (2 ^ 1023) * of_Z 4)%num
  = ofSpecFloat (mul64 (SpecFloat.S754_finite false 1 1023) (int64 4)) /\
  (round (2 ^ 1023) / round (1 # 2) * of_Z 100)%num
  = ofSpecFloat (mul64 (div64 (SpecFloat.S754_finite false 1 1023)
                              (div64 (int64 1) (int64 2))) (int64 100)) /\
  (round (1 # Z.to_pos (2 ^ 1074)) / of_Z 2)%num
  = ofSpecFloat (div64 (SpecFloat.S754_finite false 1 (-1074)) (int64 2)) /\
  (round (-3 # Z.to_pos (2 ^ 1074)) / of_Z 2)%num
  = ofSpecFloat (div64 (SpecFloat.S754_finite true 3 (-1074)) (int64 2)).
Proof. repeat split; vm_compute; reflexivity. Qed.
